(** * Verification of the tool-augmented query orchestrator

    A shallow embedding of [backend/ai_generator.py] (class [AIGenerator]):
    the bounded multi-round tool-calling loop [generate_response], the
    request builder [_make_api_call] and the tool round [_process_tool_round].

    The LLM client and the tool manager are external objects.  They are
    modelled as deterministic oracles that may depend on the whole history
    of interactions so far, and every interaction is logged in a trace. *)

From Stdlib Require Import String Ascii List Bool Arith Lia ZArith.
Import ListNotations.
Open Scope string_scope.
Open Scope list_scope.

(** ** Python values *)

(** Values of a tool-call argument mapping (a JSON object). *)
Inductive jvalue : Type :=
| JStr (s : string)
| JInt (z : Z).

Definition tool_input : Type := list (string * jvalue).

(** A content block of an API response: [block.type] is ["text"] or
    ["tool_use"]; only a text block has a [text] attribute. *)
Inductive content_block : Type :=
| TextBlock (text : string)
| ToolUseBlock (id name : string) (input : tool_input).

Record response : Type := mkResponse {
  stop_reason : string;
  content : list content_block
}.

(** The dict appended for one executed tool call; the key ["is_error"] is
    present only on failure, hence the option. *)
Record tool_result : Type := mkToolResult {
  tr_type : string;
  tool_use_id : string;
  tr_content : string;
  is_error : option bool
}.

(** The ["content"] of a conversation turn: the query text, the raw content
    of an assistant turn, or a batch of tool results. *)
Inductive message_content : Type :=
| Text (s : string)
| Blocks (bs : list content_block)
| ToolResults (rs : list tool_result).

Record message : Type := mkMessage {
  role : string;
  msg_content : message_content
}.

Record tool_schema : Type := mkToolSchema {
  schema_name : string;
  schema_description : string
}.

(** Keyword arguments of [client.messages.create]; the keys ["tools"] and
    ["tool_choice"] may be absent. *)
Record api_params : Type := mkParams {
  p_model : string;
  p_temperature : Z;
  p_max_tokens : Z;
  p_messages : list message;
  p_system : string;
  p_tools : option (list tool_schema);
  p_tool_choice : option (list (string * string))
}.

(** ** Exceptions and outcomes *)

(** A raised exception: its class name, [str(e)], and whether it is an
    instance of [Exception].  The handler [except Exception] catches the
    instances of [Exception] only; a [BaseException] outside that class
    ([KeyboardInterrupt], [SystemExit], [GeneratorExit]) passes through it. *)
Record exn : Type := mkBaseException {
  exn_class : string;
  exn_str : string;
  exn_is_exception : bool
}.

(** An exception of class [Exception] or of one of its subclasses. *)
Definition mkExn (class_name message : string) : exn :=
  mkBaseException class_name message true.

Inductive outcome (A : Type) : Type :=
| Returned (a : A)
| Raised (e : exn).
Arguments Returned {A} a.
Arguments Raised {A} e.

Definition IndexError : exn := mkExn "IndexError" "list index out of range".
Definition AttributeError : exn :=
  mkExn "AttributeError" "'ToolUseBlock' object has no attribute 'text'".

(** ** The environment *)

Inductive event : Type :=
| LLMCall (params : api_params) (out : outcome response)
| ToolCall (name : string) (input : tool_input) (out : outcome string).

Definition trace : Type := list event.

(** [client.messages.create] and [tool_manager.execute_tool], as functions
    of the interactions that happened before the call. *)
Definition Client : Type := trace -> api_params -> outcome response.
Definition ToolManager : Type := trace -> string -> tool_input -> outcome string.

Record AIGenerator : Type := mkGenerator {
  client : Client;
  model : string
}.

(** ** A state-and-exception monad over the trace *)

Definition M (A : Type) : Type := trace -> outcome A * trace.

Definition ret {A} (a : A) : M A := fun tr => (Returned a, tr).

Definition raise {A} (e : exn) : M A := fun tr => (Raised e, tr).

Definition bind {A B} (m : M A) (f : A -> M B) : M B :=
  fun tr =>
    match m tr with
    | (Returned a, tr') => f a tr'
    | (Raised e, tr') => (Raised e, tr')
    end.

(** [try: m except Exception as e: handler]: an exception that is not an
    instance of [Exception] is not handled and goes on propagating. *)
Definition try_except {A} (m : M A) (handler : exn -> M A) : M A :=
  fun tr =>
    match m tr with
    | (Returned a, tr') => (Returned a, tr')
    | (Raised e, tr') =>
        if exn_is_exception e then handler e tr' else (Raised e, tr')
    end.

Definition lift {A} (o : outcome A) : M A := fun tr => (o, tr).

Notation "x <- m ;; k" := (bind m (fun x => k))
  (at level 61, m at next level, right associativity).

(** [self.client.messages.create], called with the keyword arguments
    [api_params]: the request is logged with
    the conversation as it stands at the time of the call; later appends to
    the same Python list do not change what was sent. *)
Definition messages_create (self : AIGenerator) (params : api_params) : M response :=
  fun tr =>
    let out := client self tr params in
    (out, tr ++ [LLMCall params out]).

(** [tool_manager.execute_tool(block.name, **block.input)] *)
Definition execute_tool (tool_manager : ToolManager) (name : string)
    (input : tool_input) : M string :=
  fun tr =>
    let out := tool_manager tr name input in
    (out, tr ++ [ToolCall name input out]).

(** ** The generator *)

Definition dq : string := String (ascii_of_nat 34) EmptyString.
Definition nl : string := String (ascii_of_nat 10) EmptyString.

Definition SYSTEM_PROMPT : string := String.concat nl [
    " You are an AI assistant specialized in course materials and educational content with access to tools for course information.";
    EmptyString;
    "Tool Usage:";
    "- **search_course_content**: Use for questions about specific course content or detailed educational materials";
    "- **get_course_outline**: Use for questions about course structure, lesson lists, or course outlines";
    "- **Sequential tool calling**: You can make up to 2 sequential tool calls across separate rounds to gather information";
    "  - First round: Initial search or data gathering based on the query";
    "  - Second round (optional): Follow-up search based on first results, different filters, or additional context needed";
    "  - Use sequential calls for comparisons, multi-part questions, or when information from different courses/lessons is needed";
    "- **Strategic tool use**:";
    "  - Use first call to get broad context or initial information";
    "  - Use second call (if needed) to refine search, get specific details, or gather complementary information";
    "  - Don't repeat identical searches - each call should add value";
    "- Synthesize tool results into accurate, fact-based responses";
    "- If tool yields no results, state this clearly without offering alternatives";
    EmptyString;
    "Outline Query Requirements:";
    "When responding to outline-related queries, you MUST include:";
    "- Course title";
    "- Course link";
    "- Complete list of lessons with their numbers and titles";
    EmptyString;
    "Response Protocol:";
    "- **General knowledge questions**: Answer using existing knowledge without using tools";
    "- **Course content questions**: Use search_course_content tool first, then answer";
    "- **Course outline questions**: Use get_course_outline tool first, then answer";
    "- **No meta-commentary**:";
    " - Provide direct answers only â€” no reasoning process, tool explanations, or question-type analysis";
    (" - Do not mention " ++ dq ++ "based on the search results" ++ dq
       ++ " or " ++ dq ++ "based on the outline" ++ dq)%string;
    EmptyString;
    EmptyString;
    "All responses must be:";
    "1. **Brief, Concise and focused** - Get to the point quickly";
    "2. **Educational** - Maintain instructional value";
    "3. **Clear** - Use accessible language";
    "4. **Example-supported** - Include relevant examples when they aid understanding";
    "Provide only the direct answer to what was asked.";
    EmptyString
  ].

Definition MAX_ROUNDS : nat := 2.

(** [response.content[0].text] *)
Definition content0_text (r : response) : outcome string :=
  match content r with
  | [] => Raised IndexError
  | TextBlock text :: _ => Returned text
  | ToolUseBlock _ _ _ :: _ => Raised AttributeError
  end.

(** Truthiness of [result.get("is_error")]. *)
Definition is_error_set (r : tool_result) : bool :=
  match is_error r with
  | Some b => b
  | None => false
  end.

(** Truthiness of [tools] in [if tools:]. *)
Definition truthy_tools (tools : option (list tool_schema)) : bool :=
  match tools with
  | Some (_ :: _) => true
  | _ => false
  end.

Definition build_params (self : AIGenerator) (messages : list message)
    (tools : option (list tool_schema)) (system_content : string) : api_params :=
  if truthy_tools tools
  then mkParams (model self) 0 800 messages system_content
         tools (Some [("type", "auto")])
  else mkParams (model self) 0 800 messages system_content None None.

Definition _make_api_call (self : AIGenerator) (messages : list message)
    (tools : option (list tool_schema)) (system_content : string) : M response :=
  messages_create self (build_params self messages tools system_content).

(** The loop over [response.content] in [_process_tool_round]; the
    accumulator is the list [tool_results]. *)
Fixpoint execute_blocks (tool_manager : ToolManager) (blocks : list content_block)
    (tool_results : list tool_result) : M (list tool_result) :=
  match blocks with
  | [] => ret tool_results
  | TextBlock _ :: rest => execute_blocks tool_manager rest tool_results
  | ToolUseBlock id name input :: rest =>
      entry <- try_except
                 (result <- execute_tool tool_manager name input ;;
                  ret (mkToolResult "tool_result" id result None))
                 (fun e =>
                  ret (mkToolResult "tool_result" id
                         ("Error executing tool: " ++ exn_str e)%string (Some true))) ;;
      execute_blocks tool_manager rest (tool_results ++ [entry])
  end.

Definition _process_tool_round (response : response) (messages : list message)
    (tool_manager : ToolManager) : M (list message) :=
  let messages := messages ++ [mkMessage "assistant" (Blocks (content response))] in
  tool_results <- execute_blocks tool_manager (content response) [] ;;
  match tool_results with
  | [] => ret messages
  | _ :: _ => ret (messages ++ [mkMessage "user" (ToolResults tool_results)])
  end.

Fixpoint last_message (messages : list message) : option message :=
  match messages with
  | [] => None
  | [m] => Some m
  | _ :: rest => last_message rest
  end.

(** The check of lines 107-109: the last turn is a user turn and one of its
    entries is a dict with a truthy ["is_error"]. *)
Definition any_tool_error (messages : list message) : bool :=
  match last_message messages with
  | None => false
  | Some m =>
      if (role m =? "user")%string then
        match msg_content m with
        | ToolResults rs => existsb is_error_set rs
        | Text _ => false
        | Blocks _ => false
        end
      else false
  end.

Definition system_content_of (conversation_history : option string) : string :=
  match conversation_history with
  | None => SYSTEM_PROMPT
  | Some EmptyString => SYSTEM_PROMPT
  | Some history =>
      (SYSTEM_PROMPT ++ nl ++ nl ++ "Previous conversation:" ++ nl ++ history)%string
  end.

(** The [for round_num in range(1, MAX_ROUNDS + 1)] loop.  [Some text] is a
    [return] from inside the loop, [None] is the loop running to its end. *)
Fixpoint round_loop (self : AIGenerator) (tools : option (list tool_schema))
    (tool_manager : option ToolManager) (system_content : string)
    (round_nums : list nat) (messages : list message) : M (option string) :=
  match round_nums with
  | [] => ret None
  | round_num :: later =>
      response <- _make_api_call self messages tools system_content ;;
      if negb (stop_reason response =? "tool_use")%string then
        text <- lift (content0_text response) ;; ret (Some text)
      else
        match tool_manager with
        | None => text <- lift (content0_text response) ;; ret (Some text)
        | Some manager =>
            messages <- _process_tool_round response messages manager ;;
            if any_tool_error messages then
              final_response <- _make_api_call self messages None system_content ;;
              text <- lift (content0_text final_response) ;; ret (Some text)
            else if (round_num =? MAX_ROUNDS)%nat then
              final_response <- _make_api_call self messages None system_content ;;
              text <- lift (content0_text final_response) ;; ret (Some text)
            else
              round_loop self tools tool_manager system_content later messages
        end
  end.

Definition generate_response (self : AIGenerator) (query : string)
    (conversation_history : option string) (tools : option (list tool_schema))
    (tool_manager : option ToolManager) : M string :=
  let system_content := system_content_of conversation_history in
  let messages := [mkMessage "user" (Text query)] in
  returned <- round_loop self tools tool_manager system_content
                (seq 1 MAX_ROUNDS) messages ;;
  match returned with
  | Some text => ret text
  | None => ret "Error: Unexpected flow termination"
  end.

(** A call of [generate_response] observed from a fresh trace. *)
Definition run {A} (m : M A) : outcome A * trace := m [].

(** ** Reading a trace *)

Definition tool_call : Type := (string * tool_input * outcome string)%type.

(** A round: one LLM call plus the tool dispatches it triggers. *)
Record round : Type := mkRound {
  round_request : api_params;
  round_response : outcome response;
  round_dispatches : list tool_call
}.

Fixpoint leading_dispatches (tr : trace) : list tool_call :=
  match tr with
  | ToolCall name input out :: rest => (name, input, out) :: leading_dispatches rest
  | _ => []
  end.

Fixpoint rounds_of (tr : trace) : list round :=
  match tr with
  | [] => []
  | LLMCall params out :: rest =>
      mkRound params out (leading_dispatches rest) :: rounds_of rest
  | ToolCall _ _ _ :: rest => rounds_of rest
  end.

Definition tool_enabled (params : api_params) : bool :=
  match p_tools params with
  | Some _ => true
  | None => false
  end.

Definition dispatch_returned (c : tool_call) : bool :=
  match c with
  | (_, _, Returned _) => true
  | (_, _, Raised _) => false
  end.

(** The text a call site [final_response.content[0].text] yields. *)
Definition text_of (out : outcome response) : outcome string :=
  match out with
  | Returned r => content0_text r
  | Raised e => Raised e
  end.

(** ** The tool-use requests of a turn and their dispatch *)

Definition tool_use : Type := (string * string * tool_input)%type.

Fixpoint tool_uses (blocks : list content_block) : list tool_use :=
  match blocks with
  | [] => []
  | TextBlock _ :: rest => tool_uses rest
  | ToolUseBlock id name input :: rest => (id, name, input) :: tool_uses rest
  end.

(** An outcome the handler of the tool loop lets through. *)
Definition propagates (out : outcome string) : bool :=
  match out with
  | Returned _ => false
  | Raised e => negb (exn_is_exception e)
  end.

(** The dispatches a tool round makes for the requests [uses], with their
    outcomes: one after the other, up to and including the first whose
    exception is not handled. *)
Fixpoint dispatches (manager : ToolManager) (uses : list tool_use) (tr : trace)
    : list (tool_use * outcome string) :=
  match uses with
  | [] => []
  | (id, name, input) :: rest =>
      let out := manager tr name input in
      ((id, name, input), out)
        :: (if propagates out then []
            else dispatches manager rest (tr ++ [ToolCall name input out]))
  end.

(** The exception that ends a series of dispatches, if there is one. *)
Fixpoint interruption (ds : list (tool_use * outcome string)) : option exn :=
  match ds with
  | [] => None
  | (_, Returned _) :: rest => interruption rest
  | (_, Raised e) :: rest =>
      if exn_is_exception e then interruption rest else Some e
  end.

Definition entry_of (d : tool_use * outcome string) : tool_result :=
  match d with
  | ((id, _, _), Returned result) => mkToolResult "tool_result" id result None
  | ((id, _, _), Raised e) =>
      mkToolResult "tool_result" id
        ("Error executing tool: " ++ exn_str e)%string (Some true)
  end.

Definition event_of (d : tool_use * outcome string) : event :=
  match d with
  | ((_, name, input), out) => ToolCall name input out
  end.

Definition call_of (d : tool_use * outcome string) : tool_call :=
  match d with
  | ((_, name, input), out) => (name, input, out)
  end.

Definition assistant_turn (r : response) : message :=
  mkMessage "assistant" (Blocks (content r)).

Definition batch_turn (tool_results : list tool_result) : list message :=
  match tool_results with
  | [] => []
  | _ :: _ => [mkMessage "user" (ToolResults tool_results)]
  end.

Definition user_turn (query : string) : message := mkMessage "user" (Text query).

(** ** Exits of the round loop *)

Definition some_text (o : outcome string) : outcome (option string) :=
  match o with
  | Returned text => Returned (Some text)
  | Raised e => Raised e
  end.

(** The forced final call [_make_api_call(messages, None, system_content)]
    followed by [return final_response.content[0].text]. *)
Definition final_call (self : AIGenerator) (system_content : string)
    (messages : list message) (tr : trace) : outcome (option string) * trace :=
  let params := build_params self messages None system_content in
  let out := client self tr params in
  (some_text (text_of out), tr ++ [LLMCall params out]).

(** What [generate_response] makes of the loop's exit. *)
Definition after_loop (o : outcome (option string)) : outcome string :=
  match o with
  | Returned (Some text) => Returned text
  | Returned None => Returned "Error: Unexpected flow termination"
  | Raised e => Raised e
  end.

Definition left_inside_loop (o : outcome (option string)) : bool :=
  match o with
  | Returned (Some _) => true
  | Raised _ => true
  | Returned None => false
  end.

(** The round of the last LLM call of a trace. *)
Definition last_round (tr : trace) : option round :=
  match rev (rounds_of tr) with
  | [] => None
  | rd :: _ => Some rd
  end.

(** ** Vocabulary of the properties *)

(** The growth of the conversation as the design describes a tool round:
    the assistant turn with the raw content, then one user turn with one
    tool_result per tool_use block, in order, under the block's id. *)
Definition grows_by_request_and_results (r : response)
    (messages messages' : list message) : Prop :=
  exists batch,
    messages' = messages ++ [assistant_turn r; mkMessage "user" (ToolResults batch)] /\
    map tool_use_id batch = map (fun u => fst (fst u)) (tool_uses (content r)).

(** A turn added by a tool round: raw assistant content or tool results,
    never plain text. *)
Definition tool_round_turn (m : message) : Prop :=
  match msg_content m with
  | Text _ => False
  | Blocks _ => True
  | ToolResults _ => True
  end.

(** What holds of every request of a run that starts from [messages]. *)
Definition request_from (system_content : string) (messages : list message)
    (rd : round) : Prop :=
  p_system (round_request rd) = system_content /\
  exists turns,
    p_messages (round_request rd) = messages ++ turns /\
    Forall tool_round_turn turns.

Fixpoint last_char (s : string) : option ascii :=
  match s with
  | EmptyString => None
  | String c EmptyString => Some c
  | String _ rest => last_char rest
  end.

Definition tool_enabled_round (rd : round) : bool := tool_enabled (round_request rd).

(** ** Scripted collaborators, as the test suite builds them *)

(** A client answering its n-th call with the n-th entry of a script
    (a mock with a [side_effect] list). *)
Definition scripted (script : list (outcome response)) : Client :=
  fun tr _ =>
    nth (length (rounds_of tr)) script (Raised (mkExn "StopIteration" EmptyString)).

Definition constant_manager (result : string) : ToolManager :=
  fun _ _ _ => Returned result.

Definition failing_manager (msg : string) : ToolManager :=
  fun _ _ _ => Raised (mkExn "Exception" msg).

Definition search_schema : tool_schema :=
  mkToolSchema "search_course_content" "Search for content".

Definition search_request (id query : string) : content_block :=
  ToolUseBlock id "search_course_content" [("query", JStr query)].

Definition tool_request_t1 : response :=
  mkResponse "tool_use" [search_request "t1" "test"].

Definition here_is_the_answer : response :=
  mkResponse "end_turn" [TextBlock "Here is the answer"].

Definition answers_after_one_tool : AIGenerator :=
  mkGenerator (scripted [Returned tool_request_t1; Returned here_is_the_answer])
    "claude-sonnet-4-20250514".

Definition answers_with_context : AIGenerator :=
  mkGenerator (scripted [Returned (mkResponse "end_turn" [TextBlock "Response with context"])])
    "claude-sonnet-4-20250514".

Definition tool_request_t2 : response :=
  mkResponse "tool_use" [TextBlock "Searching again."; search_request "t2" "test2"].

Definition final_answer : response := mkResponse "end_turn" [TextBlock "Final answer"].

Definition wants_three_rounds : AIGenerator :=
  mkGenerator
    (scripted [Returned tool_request_t1; Returned tool_request_t2; Returned final_answer])
    "claude-sonnet-4-20250514".

(** ** Reading dispatches *)

(** The name and the arguments a tool_use block asks for. *)
Definition use_call (u : tool_use) : string * tool_input := (snd (fst u), snd u).

(** The name and the arguments a dispatch was made with. *)
Definition call_request (c : tool_call) : string * tool_input := fst c.

Definition is_dispatch (ev : event) : bool :=
  match ev with
  | ToolCall _ _ _ => true
  | LLMCall _ _ => false
  end.

(** What every request of a generator is made of: the base parameters of
    [__init__], and either no tool keys at all or the tool list together
    with the tool choice "auto". *)
Definition well_formed_request (self : AIGenerator) (tools : option (list tool_schema))
    (params : api_params) : Prop :=
  p_model params = model self /\
  p_temperature params = 0%Z /\
  p_max_tokens params = 800%Z /\
  ((p_tools params = None /\ p_tool_choice params = None) \/
   (truthy_tools tools = true /\ p_tools params = tools /\
    p_tool_choice params = Some [("type", "auto")])).

Definition connection_error : exn := mkExn "APIConnectionError" "Connection error.".

(** A client whose second call fails. *)
Definition loses_connection : AIGenerator :=
  mkGenerator (scripted [Returned tool_request_t1; Raised connection_error])
    "claude-sonnet-4-20250514".

Definition tool_request_t3 : response :=
  mkResponse "tool_use" [search_request "t3" "test3"].

(** A client that asks for a tool a third time, in answer to the forced
    final call. *)
Definition asks_a_third_time : AIGenerator :=
  mkGenerator
    (scripted [Returned tool_request_t1; Returned tool_request_t2; Returned tool_request_t3])
    "claude-sonnet-4-20250514".

(** ** Exceptions the tool loop does not handle *)

Definition keyboard_interrupt : exn :=
  mkBaseException "KeyboardInterrupt" EmptyString false.


(** A tool manager that serves the first round and is interrupted during
    the second. *)
Definition interrupted_in_round_two : ToolManager :=
  fun tr _ _ =>
    if (2 <=? length (rounds_of tr))%nat then Raised keyboard_interrupt
    else Returned "Result".

(** A dispatch that returned or whose exception the tool loop handles. *)
Definition dispatch_caught (c : tool_call) : bool :=
  match c with
  | (_, _, Returned _) => true
  | (_, _, Raised e) => exn_is_exception e
  end.

(** A round all of whose dispatches returned or raised an exception the
    tool loop handles. *)
Definition dispatches_caught (rd : round) : bool :=
  forallb dispatch_caught (round_dispatches rd).

(** A round in which the LLM keeps to its interface: a call that carries
    no tool schemas is not answered with a tool request. *)
Definition honours_contract (rd : round) : bool :=
  match round_response rd with
  | Returned r =>
      tool_enabled (round_request rd) || negb (stop_reason r =? "tool_use")%string
  | Raised _ => true
  end.


(** ** How a run ends *)

(** The two ways a run ends, read on its last round [rd]: nothing was
    dispatched after the last LLM call and the result is the text of its
    response (or the failure of the call); or the last dispatch raised an
    exception outside [Exception], which is the result. *)
Definition ends_with_text (res : outcome string) (rd : round) : Prop :=
  round_dispatches rd = [] /\ res = text_of (round_response rd).

Definition ends_interrupted (res : outcome string) (rd : round) : Prop :=
  exists e calls name input,
    res = Raised e /\
    exn_is_exception e = false /\
    round_dispatches rd = calls ++ [(name, input, Raised e)].

(** * Properties *)

Section Dispatch.

Variable manager : ToolManager.

Lemma execute_blocks_eq (blocks : list content_block) :
  forall acc tr,
    execute_blocks manager blocks acc tr =
    (match interruption (dispatches manager (tool_uses blocks) tr) with
     | Some e => Raised e
     | None =>
         Returned (acc ++ map entry_of (dispatches manager (tool_uses blocks) tr))
     end,
     tr ++ map event_of (dispatches manager (tool_uses blocks) tr)).
Proof.
  induction blocks as [|block rest IH]; intros acc tr; simpl.
  - unfold ret. now rewrite !app_nil_r.
  - destruct block as [text|id name input]; simpl.
    + apply IH.
    + unfold bind, try_except, execute_tool, ret at 1 2.
      destruct (manager tr name input) as [result|e]; simpl.
      * rewrite IH, <- !app_assoc.
        destruct (interruption _); reflexivity.
      * destruct (exn_is_exception e); simpl; [|reflexivity].
        rewrite IH, <- !app_assoc.
        destruct (interruption _); reflexivity.
Qed.

Lemma process_tool_round_eq (r : response) (messages : list message) (tr : trace) :
  _process_tool_round r messages manager tr =
  (match interruption (dispatches manager (tool_uses (content r)) tr) with
   | Some e => Raised e
   | None =>
       Returned (messages ++ assistant_turn r
                   :: batch_turn (map entry_of
                                    (dispatches manager (tool_uses (content r)) tr)))
   end,
   tr ++ map event_of (dispatches manager (tool_uses (content r)) tr)).
Proof.
  unfold _process_tool_round, bind.
  rewrite execute_blocks_eq.
  destruct (interruption _); [reflexivity|]. simpl.
  destruct (map entry_of _) as [|entry more]; unfold ret, batch_turn, assistant_turn.
  - reflexivity.
  - now rewrite <- app_assoc.
Qed.

(** Dispatches follow the requests in order; some requests are skipped only
    when an exception ended the series. *)
Lemma dispatches_prefix (uses : list tool_use) :
  forall tr,
    exists skipped,
      uses = map fst (dispatches manager uses tr) ++ skipped /\
      (interruption (dispatches manager uses tr) = None -> skipped = []).
Proof.
  induction uses as [|[[id name] input] rest IH]; intros tr; simpl.
  - exists []. split; reflexivity.
  - destruct (manager tr name input) as [result|e]; simpl.
    + destruct (IH (tr ++ [ToolCall name input (Returned result)]))
        as [skipped [Huses Hnone]].
      exists skipped. split; [now rewrite <- Huses|exact Hnone].
    + destruct (exn_is_exception e); simpl.
      * destruct (IH (tr ++ [ToolCall name input (Raised e)]))
          as [skipped [Huses Hnone]].
        exists skipped. split; [now rewrite <- Huses|exact Hnone].
      * exists rest. split; [reflexivity|discriminate].
Qed.

Lemma dispatches_uses (uses : list tool_use) (tr : trace) :
  interruption (dispatches manager uses tr) = None ->
  map fst (dispatches manager uses tr) = uses.
Proof.
  intros Hnone. destruct (dispatches_prefix uses tr) as [skipped [Huses Hall]].
  rewrite (Hall Hnone), app_nil_r in Huses. now symmetry.
Qed.

Lemma dispatches_length (uses : list tool_use) (tr : trace) :
  interruption (dispatches manager uses tr) = None ->
  length (dispatches manager uses tr) = length uses.
Proof.
  intros Hnone. rewrite <- (dispatches_uses uses tr Hnone) at 2.
  now rewrite length_map.
Qed.

(** The exception that ends a series of dispatches is not an instance of
    [Exception], and the dispatch that raised it is the last one made. *)
Lemma interruption_last (uses : list tool_use) :
  forall tr e,
    interruption (dispatches manager uses tr) = Some e ->
    exn_is_exception e = false /\
    exists earlier u,
      dispatches manager uses tr = earlier ++ [(u, Raised e)].
Proof.
  induction uses as [|[[id name] input] rest IH]; intros tr e; simpl.
  - discriminate.
  - destruct (manager tr name input) as [result|e0]; simpl.
    + intros Hint. destruct (IH _ _ Hint) as [Hclass [earlier [u Hds]]].
      split; [exact Hclass|].
      exists (((id, name, input), Returned result) :: earlier), u.
      now rewrite Hds.
    + destruct (exn_is_exception e0) eqn:Hclass0; simpl.
      * intros Hint. destruct (IH _ _ Hint) as [Hclass [earlier [u Hds]]].
        split; [exact Hclass|].
        exists (((id, name, input), Raised e0) :: earlier), u.
        now rewrite Hds.
      * intros Hint. injection Hint as <-.
        split; [exact Hclass0|].
        exists [], (id, name, input). reflexivity.
Qed.

End Dispatch.

Lemma entry_of_id (d : tool_use * outcome string) :
  tool_use_id (entry_of d) = fst (fst (fst d)).
Proof. destruct d as [[[id name] input] [result|e]]; reflexivity. Qed.

Lemma entry_of_error (d : tool_use * outcome string) :
  is_error_set (entry_of d) = negb (dispatch_returned (call_of d)).
Proof. destruct d as [[[id name] input] [result|e]]; reflexivity. Qed.

Lemma last_message_snoc (messages : list message) (m : message) :
  last_message (messages ++ [m]) = Some m.
Proof.
  induction messages as [|m0 rest IH]; simpl; [reflexivity|].
  rewrite IH. destruct rest; reflexivity.
Qed.

Lemma any_tool_error_after (messages : list message) (r : response)
    (tool_results : list tool_result) :
  any_tool_error (messages ++ assistant_turn r :: batch_turn tool_results) =
  existsb is_error_set tool_results.
Proof.
  unfold any_tool_error.
  destruct tool_results as [|entry more].
  - simpl batch_turn. rewrite last_message_snoc. reflexivity.
  - change (messages ++ assistant_turn r :: batch_turn (entry :: more))
      with (messages ++ [assistant_turn r] ++ [mkMessage "user" (ToolResults (entry :: more))]).
    rewrite app_assoc, last_message_snoc. reflexivity.
Qed.

Lemma leading_dispatches_events (ds : list (tool_use * outcome string)) (rest : trace) :
  leading_dispatches (map event_of ds ++ rest) = map call_of ds ++ leading_dispatches rest.
Proof.
  induction ds as [|[[[id name] input] out] more IH]; simpl; [|rewrite IH]; reflexivity.
Qed.

Lemma rounds_of_events (ds : list (tool_use * outcome string)) (rest : trace) :
  rounds_of (map event_of ds ++ rest) = rounds_of rest.
Proof.
  induction ds as [|[[[id name] input] out] more IH]; simpl; [|rewrite IH]; reflexivity.
Qed.

(** ** One iteration of the round loop, spelled out *)

Section Loop.

Variable self : AIGenerator.
Variable tools : option (list tool_schema).
Variable tool_manager : option ToolManager.
Variable system_content : string.

Lemma round_loop_unfold (round_num : nat) (later : list nat)
    (messages : list message) (tr : trace) :
  round_loop self tools tool_manager system_content (round_num :: later) messages tr =
  let params := build_params self messages tools system_content in
  let out := client self tr params in
  let tr1 := tr ++ [LLMCall params out] in
  match out with
  | Raised e => (Raised e, tr1)
  | Returned r =>
      if negb (stop_reason r =? "tool_use")%string
      then (some_text (content0_text r), tr1)
      else
        match tool_manager with
        | None => (some_text (content0_text r), tr1)
        | Some manager =>
            let ds := dispatches manager (tool_uses (content r)) tr1 in
            let messages' := messages ++ assistant_turn r :: batch_turn (map entry_of ds) in
            let tr2 := tr1 ++ map event_of ds in
            match interruption ds with
            | Some e => (Raised e, tr2)
            | None =>
                if existsb is_error_set (map entry_of ds)
                then final_call self system_content messages' tr2
                else if (round_num =? MAX_ROUNDS)%nat
                     then final_call self system_content messages' tr2
                     else round_loop self tools tool_manager system_content
                            later messages' tr2
            end
        end
  end.
Proof.
  cbn zeta. cbn [round_loop].
  unfold bind at 1, _make_api_call at 1, messages_create at 1. cbn zeta.
  destruct (client self tr (build_params self messages tools system_content))
    as [r|e]; [|reflexivity].
  destruct (negb (stop_reason r =? "tool_use")%string).
  - unfold bind, lift, ret. destruct (content0_text r); reflexivity.
  - destruct tool_manager as [manager|].
    + unfold bind at 1. rewrite process_tool_round_eq.
      destruct (interruption _); [reflexivity|].
      rewrite any_tool_error_after.
      unfold final_call, bind, _make_api_call, messages_create, lift, ret, text_of.
      cbn zeta.
      destruct (existsb is_error_set _).
      * destruct (client self _ _) as [f|e]; [destruct (content0_text f)|]; reflexivity.
      * destruct (round_num =? MAX_ROUNDS)%nat; [|reflexivity].
        destruct (client self _ _) as [f|e]; [destruct (content0_text f)|]; reflexivity.
    + unfold bind, lift, ret. destruct (content0_text r); reflexivity.
Qed.

Lemma round_loop_nil (messages : list message) (tr : trace) :
  round_loop self tools tool_manager system_content [] messages tr = (Returned None, tr).
Proof. reflexivity. Qed.

End Loop.

Lemma generate_response_eq (self : AIGenerator) (query : string)
    (history : option string) (tools : option (list tool_schema))
    (tool_manager : option ToolManager) (tr : trace) :
  generate_response self query history tools tool_manager tr =
  (after_loop (fst (round_loop self tools tool_manager (system_content_of history)
                      (seq 1 MAX_ROUNDS) [user_turn query] tr)),
   snd (round_loop self tools tool_manager (system_content_of history)
          (seq 1 MAX_ROUNDS) [user_turn query] tr)).
Proof.
  unfold generate_response, bind, user_turn.
  destruct (round_loop _ _ _ _ _ _ _) as [[[text|]|e] tr']; reflexivity.
Qed.

(** ** Natural completion and the missing tool manager *)

(** C2: when the first LLM response does not have stop_reason "tool_use",
    the run consists of exactly one LLM call and no tool dispatch, and the
    value of [response.content[0].text] of that response is the result. *)
Theorem natural_completion_on_first_call (self : AIGenerator) (query : string)
    (history : option string) (tools : option (list tool_schema))
    (tool_manager : option ToolManager) (r : response) :
  let params := build_params self [user_turn query] tools (system_content_of history) in
  client self [] params = Returned r ->
  stop_reason r <> "tool_use" ->
  run (generate_response self query history tools tool_manager) =
    (content0_text r, [LLMCall params (Returned r)]) /\
  rounds_of (snd (run (generate_response self query history tools tool_manager))) =
    [mkRound params (Returned r) []].
Proof.
  intros params Hcall Hstop.
  assert (Hrun : run (generate_response self query history tools tool_manager) =
                 (content0_text r, [LLMCall params (Returned r)])).
  { unfold run. rewrite generate_response_eq.
    change (seq 1 MAX_ROUNDS) with [1; 2].
    rewrite round_loop_unfold. cbn zeta. fold params. rewrite Hcall.
    apply String.eqb_neq in Hstop. rewrite Hstop. cbn.
    destruct (content0_text r); reflexivity. }
  split; [exact Hrun|]. rewrite Hrun. reflexivity.
Qed.

Lemma natural_completion_on_first_call_witness :
  run (generate_response
         (mkGenerator (scripted [Returned (mkResponse "end_turn" [TextBlock "This is a direct answer"])])
                      "claude-sonnet-4-20250514")
         "What is 2+2?" None None None) =
  (Returned "This is a direct answer",
   [LLMCall (build_params
               (mkGenerator (scripted [Returned (mkResponse "end_turn" [TextBlock "This is a direct answer"])])
                            "claude-sonnet-4-20250514")
               [user_turn "What is 2+2?"] None (system_content_of None))
            (Returned (mkResponse "end_turn" [TextBlock "This is a direct answer"]))]).
Proof.
  apply (natural_completion_on_first_call
           (mkGenerator (scripted [Returned (mkResponse "end_turn" [TextBlock "This is a direct answer"])])
                        "claude-sonnet-4-20250514")
           "What is 2+2?" None None None
           (mkResponse "end_turn" [TextBlock "This is a direct answer"])).
  - reflexivity.
  - discriminate.
Defined.

(** C7: without a tool manager a response with stop_reason "tool_use" ends
    the run at once: one LLM call, no tool dispatch, and the result is the
    value of [response.content[0].text], which is the text of the first
    block when that block is a text block and an AttributeError when the
    first block is the tool request itself. *)
Theorem tool_request_without_manager_is_final (self : AIGenerator) (query : string)
    (history : option string) (tools : option (list tool_schema)) (r : response) :
  let params := build_params self [user_turn query] tools (system_content_of history) in
  client self [] params = Returned r ->
  stop_reason r = "tool_use" ->
  run (generate_response self query history tools None) =
    (content0_text r, [LLMCall params (Returned r)]) /\
  rounds_of (snd (run (generate_response self query history tools None))) =
    [mkRound params (Returned r) []] /\
  (forall text rest, content r = TextBlock text :: rest ->
     fst (run (generate_response self query history tools None)) = Returned text) /\
  (forall id name input rest, content r = ToolUseBlock id name input :: rest ->
     fst (run (generate_response self query history tools None)) = Raised AttributeError).
Proof.
  intros params Hcall Hstop.
  assert (Hrun : run (generate_response self query history tools None) =
                 (content0_text r, [LLMCall params (Returned r)])).
  { unfold run. rewrite generate_response_eq.
    change (seq 1 MAX_ROUNDS) with [1; 2].
    rewrite round_loop_unfold. cbn zeta. fold params. rewrite Hcall, Hstop. cbn.
    destruct (content0_text r); reflexivity. }
  rewrite Hrun. repeat split.
  - intros text rest Hc. cbn. unfold content0_text. now rewrite Hc.
  - intros id name input rest Hc. cbn. unfold content0_text. now rewrite Hc.
Qed.

Lemma tool_request_without_manager_is_final_witness :
  fst (run (generate_response
              (mkGenerator
                 (scripted [Returned (mkResponse "tool_use"
                                        [TextBlock "Let me look that up."; search_request "t1" "MCP"])])
                 "claude-sonnet-4-20250514")
              "What is MCP?" None (Some [search_schema]) None)) =
  Returned "Let me look that up.".
Proof.
  refine (proj1 (proj2 (proj2
    (tool_request_without_manager_is_final
       (mkGenerator
          (scripted [Returned (mkResponse "tool_use"
                                 [TextBlock "Let me look that up."; search_request "t1" "MCP"])])
          "claude-sonnet-4-20250514")
       "What is MCP?" None (Some [search_schema])
       (mkResponse "tool_use" [TextBlock "Let me look that up."; search_request "t1" "MCP"])
       _ _))) "Let me look that up." [search_request "t1" "MCP"] _); reflexivity.
Defined.

(** ** Empty tool lists *)

Lemma round_loop_empty_tools (self : AIGenerator) (tool_manager : option ToolManager)
    (system_content : string) (round_nums : list nat) :
  forall messages tr,
    round_loop self (Some []) tool_manager system_content round_nums messages tr =
    round_loop self None tool_manager system_content round_nums messages tr.
Proof.
  induction round_nums as [|round_num later IH]; intros messages tr.
  - reflexivity.
  - rewrite !round_loop_unfold. cbn zeta.
    change (build_params self messages (Some []) system_content)
      with (build_params self messages None system_content).
    destruct (client self tr _) as [r|e]; [|reflexivity].
    destruct (negb _); [reflexivity|].
    destruct tool_manager as [manager|]; [|reflexivity].
    destruct (interruption _); [reflexivity|].
    destruct (existsb _ _); [reflexivity|].
    destruct (round_num =? MAX_ROUNDS)%nat; [reflexivity|].
    apply IH.
Qed.

(** C10: with [tools = []] the request built by [_make_api_call] carries
    neither a "tools" nor a "tool_choice" key; it is the request built for
    [tools = None], and a whole run with an empty tool list is, call for
    call and in its result, the run with no tools. *)
Theorem empty_tool_list_is_absent (self : AIGenerator) (messages : list message)
    (system_content : string) :
  p_tools (build_params self messages (Some []) system_content) = None /\
  p_tool_choice (build_params self messages (Some []) system_content) = None /\
  (forall tr,
     _make_api_call self messages (Some []) system_content tr =
     _make_api_call self messages None system_content tr) /\
  (forall query history tool_manager tr,
     generate_response self query history (Some []) tool_manager tr =
     generate_response self query history None tool_manager tr).
Proof.
  split; [reflexivity|]. split; [reflexivity|]. split.
  - intros tr. reflexivity.
  - intros query history tool_manager tr.
    rewrite !generate_response_eq, round_loop_empty_tools. reflexivity.
Qed.

(** ** The statement after the loop *)

Lemma final_call_inside (self : AIGenerator) (system_content : string)
    (messages : list message) (tr : trace) :
  left_inside_loop (fst (final_call self system_content messages tr)) = true.
Proof.
  unfold final_call. cbn.
  destruct (client self tr _) as [f|e]; [|reflexivity].
  cbn. destruct (content0_text f); reflexivity.
Qed.

Lemma some_text_inside (o : outcome string) : left_inside_loop (some_text o) = true.
Proof. destruct o; reflexivity. Qed.

(** The loop leaves from inside as soon as [MAX_ROUNDS] is among the round
    numbers it iterates over. *)
Lemma round_loop_inside (self : AIGenerator) (tools : option (list tool_schema))
    (tool_manager : option ToolManager) (system_content : string)
    (round_nums : list nat) :
  In MAX_ROUNDS round_nums ->
  forall messages tr,
    left_inside_loop
      (fst (round_loop self tools tool_manager system_content round_nums messages tr)) = true.
Proof.
  induction round_nums as [|round_num later IH]; intros Hin messages tr.
  - destruct Hin.
  - rewrite round_loop_unfold. cbn zeta.
    destruct (client self tr _) as [r|e]; [|reflexivity].
    destruct (negb _); [apply some_text_inside|].
    destruct tool_manager as [manager|]; [|apply some_text_inside].
    destruct (interruption _); [reflexivity|].
    destruct (existsb _ _); [apply final_call_inside|].
    destruct (Nat.eqb_spec round_num MAX_ROUNDS) as [Heq|Hneq]; [apply final_call_inside|].
    apply IH. destruct Hin as [Heq|Hin]; [congruence|exact Hin].
Qed.

Lemma rounds_of_app (tr1 tr2 : trace) :
  rev (rounds_of (tr1 ++ tr2)) =
  match rev (rounds_of tr2) with
  | [] => rev (rounds_of (tr1 ++ tr2))
  | rd :: earlier => rd :: skipn 1 (rev (rounds_of (tr1 ++ tr2)))
  end.
Proof.
  destruct (rev (rounds_of tr2)) as [|rd earlier] eqn:Hrev; [reflexivity|].
  induction tr1 as [|ev tr1 IH]; cbn [app].
  - rewrite Hrev. reflexivity.
  - destruct ev as [params out|name input out]; cbn [rounds_of]; [|exact IH].
    cbn [rev]. rewrite IH. reflexivity.
Qed.

Lemma last_round_llm (tr : trace) (params : api_params) (out : outcome response) :
  last_round (tr ++ [LLMCall params out]) = Some (mkRound params out []).
Proof.
  unfold last_round. rewrite rounds_of_app. reflexivity.
Qed.

Lemma some_text_returned (o : outcome string) (text : string) :
  some_text o = Returned (Some text) -> o = Returned text.
Proof. destruct o; cbn; congruence. Qed.

Lemma final_call_text (self : AIGenerator) (system_content : string)
    (messages : list message) (tr : trace) (text : string) :
  fst (final_call self system_content messages tr) = Returned (Some text) ->
  exists rd,
    last_round (snd (final_call self system_content messages tr)) = Some rd /\
    text_of (round_response rd) = Returned text.
Proof.
  unfold final_call. cbn [fst snd]. intros Htext.
  eexists. split; [apply last_round_llm|].
  now apply some_text_returned.
Qed.

Lemma round_loop_text (self : AIGenerator) (tools : option (list tool_schema))
    (tool_manager : option ToolManager) (system_content : string)
    (round_nums : list nat) :
  forall messages tr text,
    fst (round_loop self tools tool_manager system_content round_nums messages tr)
      = Returned (Some text) ->
    exists rd,
      last_round (snd (round_loop self tools tool_manager system_content
                         round_nums messages tr)) = Some rd /\
      text_of (round_response rd) = Returned text.
Proof.
  induction round_nums as [|round_num later IH]; intros messages tr text.
  - cbn. discriminate.
  - rewrite round_loop_unfold. cbn zeta.
    destruct (client self tr _) as [r|e] eqn:Hcall; [|cbn; discriminate].
    assert (Hnow : some_text (content0_text r) = Returned (Some text) ->
                   exists rd,
                     last_round (tr ++ [LLMCall (build_params self messages tools system_content)
                                                (Returned r)]) = Some rd /\
                     text_of (round_response rd) = Returned text).
    { intros Htext. eexists. split; [apply last_round_llm|].
      now apply some_text_returned. }
    destruct (negb _); [exact Hnow|].
    destruct tool_manager as [manager|]; [|exact Hnow].
    destruct (interruption _); [cbn; discriminate|].
    destruct (existsb _ _); [apply final_call_text|].
    destruct (round_num =? MAX_ROUNDS)%nat; [apply final_call_text|].
    apply IH.
Qed.

(** C9: the loop over [range(1, MAX_ROUNDS + 1)] is always left from inside
    (by a [return] or by a propagating exception), so the statement after
    it, which returns "Error: Unexpected flow termination", is never
    executed; every text [generate_response] returns is
    [content[0].text] of the response to the last LLM call of the run. *)
Theorem fallback_statement_unreachable (self : AIGenerator) (query : string)
    (history : option string) (tools : option (list tool_schema))
    (tool_manager : option ToolManager) (tr : trace) :
  left_inside_loop
    (fst (round_loop self tools tool_manager (system_content_of history)
            (seq 1 MAX_ROUNDS) [user_turn query] tr)) = true /\
  (forall text,
     fst (generate_response self query history tools tool_manager tr) = Returned text ->
     exists rd,
       last_round (snd (generate_response self query history tools tool_manager tr))
         = Some rd /\
       text_of (round_response rd) = Returned text).
Proof.
  assert (Hinside := round_loop_inside self tools tool_manager (system_content_of history)
                       (seq 1 MAX_ROUNDS) (or_intror (or_introl eq_refl))
                       [user_turn query] tr).
  split; [exact Hinside|].
  intros text. rewrite generate_response_eq. cbn [fst snd]. intros Hres.
  apply round_loop_text.
  destruct (fst (round_loop _ _ _ _ _ _ _)) as [[t|]|e]; cbn in *; congruence.
Qed.

Lemma fallback_statement_unreachable_witness :
  exists rd,
    last_round
      (snd (run (generate_response
                   (mkGenerator
                      (scripted [Returned (mkResponse "end_turn" [TextBlock "Response with context"])])
                      "claude-sonnet-4-20250514")
                   "Follow-up question" None None None))) = Some rd /\
    text_of (round_response rd) = Returned "Response with context".
Proof.
  apply (proj2 (fallback_statement_unreachable
                  (mkGenerator
                     (scripted [Returned (mkResponse "end_turn" [TextBlock "Response with context"])])
                     "claude-sonnet-4-20250514")
                  "Follow-up question" None None None [])).
  reflexivity.
Defined.

(** ** Tool rounds *)



(** A tool manager that raises instances of [Exception] only is never the
    end of a series of dispatches. *)
Lemma no_interruption (manager : ToolManager) (uses : list tool_use) :
  (forall tr name input e,
     manager tr name input = Raised e -> exn_is_exception e = true) ->
  forall tr, interruption (dispatches manager uses tr) = None.
Proof.
  intros Honly.
  induction uses as [|[[id name] input] rest IH]; intros tr; simpl; [reflexivity|].
  destruct (manager tr name input) as [result|e] eqn:Hcall; simpl; [apply IH|].
  rewrite (Honly _ _ _ _ Hcall). simpl. apply IH.
Qed.






Lemma batch_ids (ds : list (tool_use * outcome string)) :
  map tool_use_id (map entry_of ds) = map (fun u => fst (fst u)) (map fst ds).
Proof.
  rewrite !map_map. apply map_ext. intros d. apply entry_of_id.
Qed.

(** C5: a processed tool round whose turn carries at least one tool_use
    block appends exactly two turns, the assistant turn with the raw content
    and one user turn with one tool_result per tool_use block, in request
    order and under the request's id, and keeps the earlier turns as they
    are; and the round is processed, that is [_process_tool_round] returns,
    whenever the tool manager raises instances of [Exception] only. *)
Theorem tool_round_appends_request_and_results (manager : ToolManager)
    (r : response) (messages : list message) (tr : trace) :
  (tool_uses (content r) <> [] ->
   forall messages' tr',
     _process_tool_round r messages manager tr = (Returned messages', tr') ->
     grows_by_request_and_results r messages messages' /\
     length messages' = length messages + 2) /\
  ((forall tr0 name input e,
      manager tr0 name input = Raised e -> exn_is_exception e = true) ->
   exists messages' tr',
     _process_tool_round r messages manager tr = (Returned messages', tr')).
Proof.
  rewrite process_tool_round_eq. split.
  - intros Hsome messages' tr'.
    destruct (interruption _) eqn:Hnone; [discriminate|].
    intros Hrun. injection Hrun as <- <-.
    assert (Hids := batch_ids (dispatches manager (tool_uses (content r)) tr)).
    rewrite (dispatches_uses manager _ _ Hnone) in Hids.
    destruct (map entry_of _) as [|entry more] eqn:Hbatch.
    + destruct (tool_uses (content r)); [congruence|discriminate].
    + split.
      * exists (entry :: more). split; [reflexivity|exact Hids].
      * cbn [batch_turn]. rewrite length_app. cbn. lia.
  - intros Honly. rewrite (no_interruption manager _ Honly). do 2 eexists. reflexivity.
Qed.

Lemma tool_round_appends_request_and_results_witness :
  grows_by_request_and_results
    (mkResponse "tool_use" [search_request "t1" "MCP"; search_request "t2" "RAG"])
    [user_turn "Compare MCP and RAG"]
    [user_turn "Compare MCP and RAG";
     assistant_turn
       (mkResponse "tool_use" [search_request "t1" "MCP"; search_request "t2" "RAG"]);
     mkMessage "user"
       (ToolResults [mkToolResult "tool_result" "t1" "Result" None;
                     mkToolResult "tool_result" "t2" "Result" None])] /\
  length [user_turn "Compare MCP and RAG";
          assistant_turn
            (mkResponse "tool_use" [search_request "t1" "MCP"; search_request "t2" "RAG"]);
          mkMessage "user"
            (ToolResults [mkToolResult "tool_result" "t1" "Result" None;
                          mkToolResult "tool_result" "t2" "Result" None])]
  = length [user_turn "Compare MCP and RAG"] + 2.
Proof.
  eapply (proj1 (tool_round_appends_request_and_results (constant_manager "Result")
                   (mkResponse "tool_use" [search_request "t1" "MCP"; search_request "t2" "RAG"])
                   [user_turn "Compare MCP and RAG"] [])).
  - discriminate.
  - reflexivity.
Defined.

(** C3: in any round, when the batch of tool results holds an entry with
    the error flag, the loop makes exactly one more LLM call, built with
    [tools = None] and so without "tools" and "tool_choice", and leaves with
    the text of that call's response; the round number and the rounds still
    to come play no part. *)
Theorem error_result_forces_final_call (self : AIGenerator)
    (tools : option (list tool_schema)) (manager : ToolManager)
    (system_content : string) (round_num : nat) (later : list nat)
    (messages : list message) (tr : trace) (r : response)
    (batch : list tool_result) (tr2 : trace) :
  let params := build_params self messages tools system_content in
  client self tr params = Returned r ->
  stop_reason r = "tool_use" ->
  execute_blocks manager (content r) [] (tr ++ [LLMCall params (Returned r)])
    = (Returned batch, tr2) ->
  existsb is_error_set batch = true ->
  let messages' :=
    messages ++ [assistant_turn r; mkMessage "user" (ToolResults batch)] in
  let final_params := build_params self messages' None system_content in
  let out := client self tr2 final_params in
  p_tools final_params = None /\
  p_tool_choice final_params = None /\
  round_loop self tools (Some manager) system_content (round_num :: later) messages tr =
    (some_text (text_of out), tr2 ++ [LLMCall final_params out]).
Proof.
  intros params Hcall Hstop Hbatch Herror messages' final_params out.
  split; [reflexivity|]. split; [reflexivity|].
  rewrite round_loop_unfold. cbn zeta. fold params.
  rewrite Hcall, Hstop. cbn [String.eqb Ascii.eqb Bool.eqb negb].
  rewrite execute_blocks_eq in Hbatch. cbn [app] in Hbatch.
  destruct (interruption _); [discriminate|].
  injection Hbatch as Hbatch Htr2.
  rewrite Hbatch, Htr2, Herror.
  destruct batch as [|entry more]; [discriminate|].
  reflexivity.
Qed.

Lemma error_result_forces_final_call_witness :
  round_loop
    (mkGenerator
       (scripted [Returned (mkResponse "tool_use" [ToolUseBlock "t1" "search_course_content" []]);
                  Returned (mkResponse "end_turn"
                              [TextBlock "I encountered an error with the search"])])
       "claude-sonnet-4-20250514")
    (Some [search_schema]) (Some (failing_manager "Database connection failed"))
    (system_content_of None) [1; 2] [user_turn "Test"] [] =
  (Returned (Some "I encountered an error with the search"),
   [LLMCall (mkParams "claude-sonnet-4-20250514" 0 800 [user_turn "Test"]
               (system_content_of None) (Some [search_schema]) (Some [("type", "auto")]))
      (Returned (mkResponse "tool_use" [ToolUseBlock "t1" "search_course_content" []]));
    ToolCall "search_course_content" []
      (Raised (mkExn "Exception" "Database connection failed"));
    LLMCall (mkParams "claude-sonnet-4-20250514" 0 800
               [user_turn "Test";
                mkMessage "assistant" (Blocks [ToolUseBlock "t1" "search_course_content" []]);
                mkMessage "user"
                  (ToolResults [mkToolResult "tool_result" "t1"
                                  "Error executing tool: Database connection failed"
                                  (Some true)])]
               (system_content_of None) None None)
      (Returned (mkResponse "end_turn"
                   [TextBlock "I encountered an error with the search"]))]).
Proof.
  refine (proj2 (proj2
    (error_result_forces_final_call
       (mkGenerator
          (scripted [Returned (mkResponse "tool_use" [ToolUseBlock "t1" "search_course_content" []]);
                     Returned (mkResponse "end_turn"
                                 [TextBlock "I encountered an error with the search"])])
          "claude-sonnet-4-20250514")
       (Some [search_schema]) (failing_manager "Database connection failed")
       (system_content_of None) 1 [2] [user_turn "Test"] []
       (mkResponse "tool_use" [ToolUseBlock "t1" "search_course_content" []])
       [mkToolResult "tool_result" "t1"
          "Error executing tool: Database connection failed" (Some true)]
       [LLMCall (mkParams "claude-sonnet-4-20250514" 0 800 [user_turn "Test"]
                   (system_content_of None) (Some [search_schema]) (Some [("type", "auto")]))
          (Returned (mkResponse "tool_use" [ToolUseBlock "t1" "search_course_content" []]));
        ToolCall "search_course_content" []
          (Raised (mkExn "Exception" "Database connection failed"))]
       _ _ _ _))); reflexivity.
Defined.

(** ** Whole runs, read round by round *)

Lemma after_loop_some_text (o : outcome string) : after_loop (some_text o) = o.
Proof. destruct o; reflexivity. Qed.

Lemma length_calls (manager : ToolManager) (uses : list tool_use) (tr : trace) :
  interruption (dispatches manager uses tr) = None ->
  length (map call_of (dispatches manager uses tr)) = length uses.
Proof. intros Hnone. now rewrite length_map, dispatches_length. Qed.

Lemma leading_dispatches_of_events (ds : list (tool_use * outcome string)) :
  leading_dispatches (map event_of ds) = map call_of ds.
Proof.
  rewrite <- (app_nil_r (map event_of ds)), leading_dispatches_events.
  cbn [leading_dispatches]. apply app_nil_r.
Qed.

Lemma rounds_of_only_events (ds : list (tool_use * outcome string)) :
  rounds_of (map event_of ds) = [].
Proof.
  rewrite <- (app_nil_r (map event_of ds)), rounds_of_events. reflexivity.
Qed.

Ltac read_trace :=
  cbn [app]; rewrite <- ?app_assoc;
  repeat progress
    (cbn [app rounds_of leading_dispatches];
     rewrite ?leading_dispatches_events, ?rounds_of_events,
       ?leading_dispatches_of_events, ?rounds_of_only_events);
  rewrite ?app_nil_r.

Ltac start_run :=
  unfold run; rewrite generate_response_eq;
  change (seq 1 MAX_ROUNDS) with [1; 2];
  rewrite round_loop_unfold; cbn zeta.

(** Names the result and the trace of the branch at hand and reads its rounds. *)
Ltac this_branch :=
  unfold final_call; cbn [fst snd];
  let Hrun := fresh "Hrun" in
  intros Hrun; injection Hrun as <- <-; read_trace.

(** C8: in a run whose first LLM response requests exactly one tool use
    and whose second LLM response is a natural completion, there are exactly
    two LLM calls and exactly one tool dispatch, and the result is
    [content[0].text] of the second response. *)
Theorem one_tool_round_then_completion (self : AIGenerator) (query : string)
    (history : option string) (tools : option (list tool_schema))
    (tool_manager : option ToolManager) (res : outcome string) (tr : trace)
    (req1 req2 : api_params) (r1 r2 : response) (calls1 calls2 : list tool_call)
    (more : list round) :
  run (generate_response self query history tools tool_manager) = (res, tr) ->
  rounds_of tr =
    mkRound req1 (Returned r1) calls1 :: mkRound req2 (Returned r2) calls2 :: more ->
  stop_reason r1 = "tool_use" ->
  length (tool_uses (content r1)) = 1 ->
  stop_reason r2 <> "tool_use" ->
  more = [] /\ length calls1 = 1 /\ calls2 = [] /\ res = content0_text r2.
Proof.
  start_run.
  destruct (client self [] _) as [ra|e]; [|this_branch; discriminate].
  destruct (negb (stop_reason ra =? "tool_use")%string); [this_branch; discriminate|].
  destruct tool_manager as [manager|]; [|this_branch; discriminate].
  destruct (interruption _) eqn:Hwhole1; [this_branch; discriminate|].
  cbn [app] in Hwhole1.
  destruct (existsb _ _).
  { this_branch. intros Hrounds Hstop1 Hone Hstop2.
    inversion Hrounds as [[Hreq1 Hr1 Hcalls1 Hreq2 Hout]]. subst.
    rewrite (length_calls _ _ _ Hwhole1), Hout, after_loop_some_text.
    repeat split; assumption. }
  cbn [Nat.eqb MAX_ROUNDS].
  rewrite round_loop_unfold. cbn zeta.
  destruct (client self _ _) as [rb|e]; [|this_branch; discriminate].
  destruct (negb (stop_reason rb =? "tool_use")%string) eqn:Hnatural.
  { this_branch. intros Hrounds Hstop1 Hone Hstop2.
    inversion Hrounds. subst.
    rewrite (length_calls _ _ _ Hwhole1), after_loop_some_text.
    repeat split; assumption. }
  apply negb_false_iff, String.eqb_eq in Hnatural.
  clear Hwhole1.
  destruct (interruption _);
    [|destruct (existsb _ _)]; this_branch; intros Hrounds Hstop1 Hone Hstop2;
    inversion Hrounds; subst; contradiction.
Qed.

Lemma one_tool_round_then_completion_witness :
  fst (run (generate_response answers_after_one_tool "Simple query" None
              (Some [search_schema]) (Some (constant_manager "Tool result")))) =
  Returned "Here is the answer".
Proof.
  refine (proj2 (proj2 (proj2
    (one_tool_round_then_completion answers_after_one_tool "Simple query" None
       (Some [search_schema]) (Some (constant_manager "Tool result"))
       _ _ _ _ tool_request_t1 here_is_the_answer _ _ [] _ _ _ _ _)))).
  - apply surjective_pairing.
  - reflexivity.
  - reflexivity.
  - reflexivity.
  - discriminate.
Defined.

(** ** The conversation and the system instructions *)

Lemma last_char_append (a b : string) :
  b <> EmptyString -> last_char (a ++ b)%string = last_char b.
Proof.
  intros Hb. induction a as [|c a IH]; cbn; [reflexivity|].
  rewrite IH. destruct (a ++ b)%string eqn:Hab; [|reflexivity].
  destruct a; cbn in Hab; [contradiction|discriminate].
Qed.

Lemma batch_turn_tool_round (tool_results : list tool_result) :
  Forall tool_round_turn (batch_turn tool_results).
Proof.
  destruct tool_results; cbn; [constructor|].
  constructor; [exact I|constructor].
Qed.

Lemma request_from_extend (system_content : string) (messages added : list message)
    (rd : round) :
  Forall tool_round_turn added ->
  request_from system_content (messages ++ added) rd ->
  request_from system_content messages rd.
Proof.
  intros Hadded [Hsys [turns [Hmsgs Hturns]]].
  split; [exact Hsys|].
  exists (added ++ turns). split.
  - now rewrite Hmsgs, app_assoc.
  - now apply Forall_app.
Qed.

Lemma request_from_start (self : AIGenerator) (tools : option (list tool_schema))
    (system_content : string) (messages : list message) (out : outcome response)
    (calls : list tool_call) :
  request_from system_content messages
    (mkRound (build_params self messages tools system_content) out calls).
Proof.
  split.
  - unfold build_params. destruct (truthy_tools tools); reflexivity.
  - exists []. split; [|constructor].
    unfold build_params. destruct (truthy_tools tools); cbn; now rewrite app_nil_r.
Qed.

Lemma final_call_requests (self : AIGenerator) (system_content : string)
    (messages : list message) (tr : trace) :
  exists evs,
    snd (final_call self system_content messages tr) = tr ++ evs /\
    Forall (request_from system_content messages) (rounds_of evs).
Proof.
  unfold final_call. cbn [snd]. eexists. split; [reflexivity|].
  cbn [rounds_of leading_dispatches].
  constructor; [apply request_from_start|constructor].
Qed.

(** Every request of the loop carries the same system instructions, and its
    messages are the messages the loop started from followed by turns of
    tool rounds only. *)
Lemma round_loop_requests (self : AIGenerator) (tools : option (list tool_schema))
    (tool_manager : option ToolManager) (system_content : string)
    (round_nums : list nat) :
  forall messages tr,
  exists evs,
    snd (round_loop self tools tool_manager system_content round_nums messages tr)
      = tr ++ evs /\
    Forall (request_from system_content messages) (rounds_of evs).
Proof.
  induction round_nums as [|round_num later IH]; intros messages tr.
  - exists []. cbn. split; [now rewrite app_nil_r|constructor].
  - rewrite round_loop_unfold. cbn zeta.
    set (params := build_params self messages tools system_content).
    assert (Hone : forall out,
              exists evs, tr ++ [LLMCall params out] = tr ++ evs /\
                Forall (request_from system_content messages) (rounds_of evs)).
    { intros out. eexists. split; [reflexivity|].
      cbn [rounds_of leading_dispatches].
      constructor; [apply request_from_start|constructor]. }
    destruct (client self tr params) as [r|e]; [|apply Hone].
    destruct (negb _); [apply Hone|].
    destruct tool_manager as [manager|]; [|apply Hone].
    set (tr1 := tr ++ [LLMCall params (Returned r)]).
    set (ds := dispatches manager (tool_uses (content r)) tr1).
    set (messages' := messages ++ assistant_turn r :: batch_turn (map entry_of ds)).
    assert (Hadded : Forall tool_round_turn
                       (assistant_turn r :: batch_turn (map entry_of ds))).
    { constructor; [exact I|apply batch_turn_tool_round]. }
    assert (Hthen : forall final tr',
              (exists evs, tr' = (tr1 ++ map event_of ds) ++ evs /\
                 Forall (request_from system_content messages') (rounds_of evs)) ->
              final = tr' ->
              exists evs, final = tr ++ evs /\
                Forall (request_from system_content messages) (rounds_of evs)).
    { intros final tr' [evs [Htr' Hevs]] ->.
      exists (LLMCall params (Returned r) :: map event_of ds ++ evs). split.
      - rewrite Htr'. unfold tr1. now rewrite <- !app_assoc.
      - cbn [rounds_of]. rewrite rounds_of_events.
        constructor; [apply request_from_start|].
        eapply Forall_impl; [|exact Hevs].
        intros rd. apply request_from_extend. exact Hadded. }
    destruct (interruption ds).
    { cbn [snd]. eapply Hthen; [|reflexivity].
      exists []. split; [now rewrite app_nil_r|constructor]. }
    destruct (existsb _ _).
    + eapply Hthen; [apply final_call_requests|reflexivity].
    + destruct (round_num =? MAX_ROUNDS)%nat.
      * eapply Hthen; [apply final_call_requests|reflexivity].
      * eapply Hthen; [apply IH|reflexivity].
Qed.

Lemma round_loop_first_request (self : AIGenerator) (tools : option (list tool_schema))
    (tool_manager : option ToolManager) (system_content : string)
    (round_num : nat) (later : list nat) (messages : list message) :
  exists out calls more,
    rounds_of (snd (round_loop self tools tool_manager system_content
                      (round_num :: later) messages [])) =
    mkRound (build_params self messages tools system_content) out calls :: more.
Proof.
  rewrite round_loop_unfold. cbn zeta.
  destruct (client self [] _) as [r|e] eqn:Hcall;
    [|do 3 eexists; reflexivity].
  destruct (negb _); [do 3 eexists; reflexivity|].
  destruct tool_manager as [manager|]; [|do 3 eexists; reflexivity].
  destruct (interruption _);
    [cbn [snd]; read_trace; do 3 eexists; reflexivity|].
  destruct (existsb _ _).
  - unfold final_call. read_trace. do 3 eexists. reflexivity.
  - destruct (round_num =? MAX_ROUNDS)%nat.
    + unfold final_call. read_trace. do 3 eexists. reflexivity.
    + match goal with
      | |- context [round_loop ?g ?t ?m ?s later ?msgs ?tr0] =>
          destruct (round_loop_requests g t m s later msgs tr0) as [evs [Hsnd _]]
      end.
      rewrite Hsnd. read_trace. do 3 eexists. reflexivity.
Qed.

(** The claim's reading fails on two counts: with a history the system
    instructions do not end with the preamble, whatever is put in front
    (the history block follows the preamble), and an empty history string
    leaves the preamble alone. *)
Lemma history_block_follows_the_preamble :
  ~ (exists block : string,
       system_content_of (Some "User: Previous question") = (block ++ SYSTEM_PROMPT)%string) /\
  system_content_of (Some EmptyString) = SYSTEM_PROMPT.
Proof.
  split; [|reflexivity].
  intros [block Hblock].
  apply (f_equal last_char) in Hblock.
  rewrite last_char_append in Hblock.
  - vm_compute in Hblock. discriminate.
  - intros Hempty. vm_compute in Hempty. discriminate.
Qed.

(** C6: every run starts from a conversation of exactly one user turn
    holding the query; every LLM call of the run is sent the same system
    instructions, and the turns after the query are turns of tool rounds
    only; for a non-empty history string the system instructions are the
    fixed preamble followed by a blank line, the line "Previous
    conversation:" and the history, and for no history or an empty history
    string they are the preamble alone. *)
Theorem history_goes_into_system_instructions (self : AIGenerator) (query : string)
    (history : option string) (tools : option (list tool_schema))
    (tool_manager : option ToolManager) :
  (exists out calls more,
     rounds_of (snd (run (generate_response self query history tools tool_manager))) =
     mkRound (build_params self [user_turn query] tools (system_content_of history))
       out calls :: more) /\
  Forall (request_from (system_content_of history) [user_turn query])
    (rounds_of (snd (run (generate_response self query history tools tool_manager)))) /\
  (forall h, history = Some h -> h <> EmptyString ->
     system_content_of history =
     (SYSTEM_PROMPT ++ nl ++ nl ++ "Previous conversation:" ++ nl ++ h)%string) /\
  (history = None \/ history = Some EmptyString ->
   system_content_of history = SYSTEM_PROMPT).
Proof.
  unfold run. rewrite generate_response_eq. cbn [snd].
  change (seq 1 MAX_ROUNDS) with [1; 2].
  split; [apply round_loop_first_request|]. split; [|split].
  - destruct (round_loop_requests self tools tool_manager (system_content_of history)
                [1; 2] [user_turn query] []) as [evs [Hsnd Hall]].
    rewrite Hsnd. exact Hall.
  - intros h -> Hh. destruct h; [contradiction|reflexivity].
  - intros [->| ->]; reflexivity.
Qed.

Lemma history_goes_into_system_instructions_witness :
  system_content_of (Some "User: Previous question") =
  (SYSTEM_PROMPT ++ nl ++ nl ++ "Previous conversation:" ++ nl
     ++ "User: Previous question")%string.
Proof.
  apply (proj1 (proj2 (proj2
    (history_goes_into_system_instructions answers_with_context "Follow-up question"
       (Some "User: Previous question") None None)))
    "User: Previous question" eq_refl).
  discriminate.
Defined.

(** ** Two tool rounds *)

Lemma batch_error_iff_raised (ds : list (tool_use * outcome string)) :
  existsb is_error_set (map entry_of ds) =
  negb (forallb dispatch_returned (map call_of ds)).
Proof.
  induction ds as [|d more IH]; [reflexivity|].
  cbn [map existsb forallb]. rewrite IH, entry_of_error, negb_andb. reflexivity.
Qed.

Lemma tool_enabled_build (self : AIGenerator) (messages : list message)
    (tools : option (list tool_schema)) (system_content : string) :
  tool_enabled (build_params self messages tools system_content) = truthy_tools tools.
Proof.
  unfold build_params. destruct tools as [[|schema schemas]|]; reflexivity.
Qed.

Lemma tool_enabled_round_build (self : AIGenerator) (messages : list message)
    (tools : option (list tool_schema)) (system_content : string)
    (out : outcome response) (calls : list tool_call) :
  tool_enabled_round (mkRound (build_params self messages tools system_content) out calls)
  = truthy_tools tools.
Proof. apply tool_enabled_build. Qed.

Ltac count_enabled :=
  cbn [filter]; rewrite ?tool_enabled_round_build; cbn [truthy_tools];
  repeat match goal with
         | |- context [truthy_tools ?t] => destruct (truthy_tools t)
         end;
  cbn [length filter]; lia.

Lemma caught_no_interruption (ds : list (tool_use * outcome string)) :
  forallb dispatch_caught (map call_of ds) = true -> interruption ds = None.
Proof.
  induction ds as [|[[[id name] input] [result|e]] more IH]; cbn; [reflexivity|exact IH|].
  destruct (exn_is_exception e); [exact IH|discriminate].
Qed.

Lemma contract_without_tools (self : AIGenerator) (messages : list message)
    (system_content : string) (r : response) (calls : list tool_call) :
  honours_contract
    (mkRound (build_params self messages None system_content) (Returned r) calls) = true ->
  stop_reason r <> "tool_use".
Proof.
  unfold honours_contract. cbn [round_response round_request].
  rewrite tool_enabled_build. cbn [truthy_tools orb].
  intros Hnot. now apply negb_true_iff, String.eqb_neq in Hnot.
Qed.

Lemma contract_with_request (self : AIGenerator) (messages : list message)
    (tools : option (list tool_schema)) (system_content : string) (r : response)
    (calls : list tool_call) :
  honours_contract
    (mkRound (build_params self messages tools system_content) (Returned r) calls) = true ->
  stop_reason r = "tool_use" ->
  truthy_tools tools = true.
Proof.
  unfold honours_contract. cbn [round_response round_request].
  rewrite tool_enabled_build. intros Hcontract Hstop.
  rewrite Hstop in Hcontract. cbn in Hcontract.
  now rewrite orb_false_r in Hcontract.
Qed.

Lemma tools_attached (self : AIGenerator) (messages : list message)
    (tools : option (list tool_schema)) (system_content : string) :
  truthy_tools tools = true ->
  p_tools (build_params self messages tools system_content) = tools /\
  p_tool_choice (build_params self messages tools system_content)
    = Some [("type", "auto")].
Proof.
  intros Htruthy. unfold build_params. rewrite Htruthy. split; reflexivity.
Qed.

(** A run against the claim as stated: the LLM asks for a tool on the
    first and on the second call, both of which carry the tool schemas, and
    the tool is interrupted during the second round.  The
    [KeyboardInterrupt] is not handled and leaves [generate_response]: two
    LLM calls, no third one, no text returned. *)
Lemma interrupted_second_round_ends_after_two_calls :
  map round_response
    (rounds_of (snd (run (generate_response wants_three_rounds "Complex query" None
                            (Some [search_schema]) (Some interrupted_in_round_two)))))
  = [Returned tool_request_t1; Returned tool_request_t2] /\
  stop_reason tool_request_t1 = "tool_use" /\
  stop_reason tool_request_t2 = "tool_use" /\
  map (fun rd => p_tools (round_request rd))
    (rounds_of (snd (run (generate_response wants_three_rounds "Complex query" None
                            (Some [search_schema]) (Some interrupted_in_round_two)))))
  = [Some [search_schema]; Some [search_schema]] /\
  forallb honours_contract
    (rounds_of (snd (run (generate_response wants_three_rounds "Complex query" None
                            (Some [search_schema]) (Some interrupted_in_round_two)))))
  = true /\
  fst (run (generate_response wants_three_rounds "Complex query" None
              (Some [search_schema]) (Some interrupted_in_round_two)))
  = Raised keyboard_interrupt.
Proof.
  repeat split; reflexivity.
Qed.

(** C1: no run makes more than two tool-enabled LLM calls; and in a run
    where the LLM keeps to its interface (no tool request in answer to a
    call without tool schemas), where no tool dispatch raises an exception
    outside [Exception], and where the first two LLM responses both request
    tool use, there are exactly three LLM calls: the first two carry the
    tool list, which is not empty, and the tool choice "auto", the third
    carries neither "tools" nor "tool_choice" and triggers no dispatch, and
    the result is [content[0].text] of the third response. *)
Theorem two_tool_rounds_then_forced_final (self : AIGenerator) (query : string)
    (history : option string) (tools : option (list tool_schema))
    (tool_manager : option ToolManager) (res : outcome string) (tr : trace) :
  run (generate_response self query history tools tool_manager) = (res, tr) ->
  length (filter tool_enabled_round (rounds_of tr)) <= 2 /\
  (forall req1 req2 r1 r2 calls1 calls2 more,
     forallb honours_contract (rounds_of tr) = true ->
     forallb dispatches_caught (rounds_of tr) = true ->
     rounds_of tr =
       mkRound req1 (Returned r1) calls1 :: mkRound req2 (Returned r2) calls2 :: more ->
     stop_reason r1 = "tool_use" ->
     stop_reason r2 = "tool_use" ->
     exists req3 out3,
       more = [mkRound req3 out3 []] /\
       truthy_tools tools = true /\
       p_tools req1 = tools /\ p_tool_choice req1 = Some [("type", "auto")] /\
       p_tools req2 = tools /\ p_tool_choice req2 = Some [("type", "auto")] /\
       p_tools req3 = None /\ p_tool_choice req3 = None /\
       res = text_of out3).
Proof.
  start_run.
  destruct (client self [] _) as [ra|e].
  2:{ this_branch. split; [count_enabled|]. intros; discriminate. }
  destruct (negb (stop_reason ra =? "tool_use")%string).
  { this_branch. split; [count_enabled|]. intros; discriminate. }
  destruct tool_manager as [manager|].
  2:{ this_branch. split; [count_enabled|]. intros; discriminate. }
  destruct (interruption _).
  { this_branch. split; [count_enabled|]. intros; discriminate. }
  destruct (existsb _ _).
  { this_branch. split; [count_enabled|].
    intros req1 req2 r1 r2 calls1 calls2 more Hcontract Hcaught Hrounds Hstop1 Hstop2.
    exfalso. inversion Hrounds as [[Hreq1 Hr1 Hcalls1 Hreq2 Hout]]. subst.
    cbn [forallb] in Hcontract.
    apply andb_prop in Hcontract as [_ Hcontract].
    apply andb_prop in Hcontract as [Hcontract _].
    rewrite Hout in Hcontract.
    now apply contract_without_tools in Hcontract. }
  cbn [Nat.eqb MAX_ROUNDS].
  rewrite round_loop_unfold. cbn zeta.
  destruct (client self _ _) as [rb|e].
  2:{ this_branch. split; [count_enabled|]. intros; discriminate. }
  destruct (negb (stop_reason rb =? "tool_use")%string) eqn:Hnatural.
  { this_branch. split; [count_enabled|].
    intros req1 req2 r1 r2 calls1 calls2 more Hcontract Hcaught Hrounds Hstop1 Hstop2.
    inversion Hrounds. subst.
    apply negb_true_iff, String.eqb_neq in Hnatural. contradiction. }
  clear Hnatural.
  destruct (interruption _) eqn:Hwhole2.
  { this_branch. split; [count_enabled|].
    intros req1 req2 r1 r2 calls1 calls2 more Hcontract Hcaught Hrounds Hstop1 Hstop2.
    exfalso. cbn [forallb] in Hcaught.
    apply andb_prop in Hcaught as [_ Hcaught].
    apply andb_prop in Hcaught as [Hcaught _].
    unfold dispatches_caught in Hcaught. cbn [round_dispatches] in Hcaught.
    apply caught_no_interruption in Hcaught.
    cbn [app] in Hwhole2. rewrite <- ?app_assoc in Hwhole2. cbn [app] in Hwhole2.
    congruence. }
  clear Hwhole2.
  destruct (existsb _ _); this_branch; (split; [count_enabled|]);
    intros req1 req2 r1 r2 calls1 calls2 more Hcontract Hcaught Hrounds Hstop1 Hstop2;
    inversion Hrounds; subst;
    cbn [forallb] in Hcontract;
    apply andb_prop in Hcontract as [Hfirst _];
    (apply contract_with_request in Hfirst; [|assumption]);
    do 2 eexists; rewrite after_loop_some_text;
    (split; [reflexivity|]); (split; [exact Hfirst|]);
    (split; [now apply tools_attached|]); (split; [now apply tools_attached|]);
    (split; [now apply tools_attached|]); (split; [now apply tools_attached|]);
    repeat split; reflexivity.
Qed.

Lemma two_tool_rounds_then_forced_final_witness :
  length (filter tool_enabled_round
            (rounds_of (snd (run (generate_response wants_three_rounds "Complex query" None
                                    (Some [search_schema])
                                    (Some (constant_manager "Result"))))))) <= 2 /\
  exists req3 out3,
    p_tools req3 = None /\ p_tool_choice req3 = None /\
    fst (run (generate_response wants_three_rounds "Complex query" None
                (Some [search_schema]) (Some (constant_manager "Result")))) = text_of out3 /\
    text_of out3 = Returned "Final answer".
Proof.
  destruct (two_tool_rounds_then_forced_final wants_three_rounds "Complex query" None
              (Some [search_schema]) (Some (constant_manager "Result")) _ _
              (surjective_pairing _)) as [Hbound Hthree].
  split; [exact Hbound|].
  edestruct Hthree
    as [req3 [out3 [Hmore [_ [_ [_ [_ [_ [Htools [Hchoice Hres]]]]]]]]]];
    [reflexivity|reflexivity|reflexivity|reflexivity|reflexivity|].
  exists req3, out3.
  split; [exact Htools|]. split; [exact Hchoice|]. split; [exact Hres|].
  rewrite <- Hres. reflexivity.
Defined.

(** * Further properties of the generator *)

Ltac enter_run :=
  match goal with
  | |- context [run ?g] =>
      let res := fresh "res" in
      let tr := fresh "tr" in
      let Hrun := fresh "Hrun" in
      destruct (run g) as [res tr] eqn:Hrun; cbn [fst snd]; revert Hrun
  end.

(** X1: a run makes at least one and at most [MAX_ROUNDS + 1] LLM calls. *)
Theorem llm_calls_between_one_and_three (self : AIGenerator) (query : string)
    (history : option string) (tools : option (list tool_schema))
    (tool_manager : option ToolManager) :
  1 <= length (rounds_of (snd (run (generate_response self query history tools
                                      tool_manager)))) <= MAX_ROUNDS + 1.
Proof.
  enter_run. start_run.
  destruct (client self [] _) as [ra|e]; [|this_branch; cbn; lia].
  destruct (negb _); [this_branch; cbn; lia|].
  destruct tool_manager as [manager|]; [|this_branch; cbn; lia].
  destruct (interruption _); [this_branch; cbn; lia|].
  destruct (existsb _ _); [this_branch; cbn; lia|].
  cbn [Nat.eqb MAX_ROUNDS]. rewrite round_loop_unfold. cbn zeta.
  destruct (client self _ _) as [rb|e]; [|this_branch; cbn; lia].
  destruct (negb _); [this_branch; cbn; lia|].
  destruct (interruption _); [this_branch; cbn; lia|].
  destruct (existsb _ _); this_branch; cbn; lia.
Qed.

(** ** How a run ends *)

Lemma interrupted_calls (manager : ToolManager) (uses : list tool_use)
    (tr : trace) (e : exn) (params : api_params) (out : outcome response) :
  interruption (dispatches manager uses tr) = Some e ->
  ends_interrupted (Raised e)
    (mkRound params out (map call_of (dispatches manager uses tr))).
Proof.
  intros Hint.
  destruct (interruption_last manager uses tr e Hint)
    as [Hclass [earlier [[[id name] input] Hds]]].
  exists e, (map call_of earlier), name, input.
  split; [reflexivity|]. split; [exact Hclass|].
  cbn [round_dispatches]. rewrite Hds, map_app. reflexivity.
Qed.

Lemma text_ends (params : api_params) (out : outcome response) :
  ends_with_text (after_loop (some_text (text_of out))) (mkRound params out []).
Proof. split; [reflexivity|]. now rewrite after_loop_some_text. Qed.

Lemma run_ends (self : AIGenerator) (query : string)
    (history : option string) (tools : option (list tool_schema))
    (tool_manager : option ToolManager) :
  exists rd,
    last_round (snd (run (generate_response self query history tools tool_manager)))
      = Some rd /\
    (ends_with_text
       (fst (run (generate_response self query history tools tool_manager))) rd \/
     ends_interrupted
       (fst (run (generate_response self query history tools tool_manager))) rd).
Proof.
  unfold last_round. enter_run. start_run.
  destruct (client self [] _) as [ra|e].
  2:{ this_branch. eexists. split; [reflexivity|].
      left. apply (text_ends _ (Raised e)). }
  destruct (negb _).
  { this_branch. eexists. split; [reflexivity|].
    left. apply (text_ends _ (Returned ra)). }
  destruct tool_manager as [manager|].
  2:{ this_branch. eexists. split; [reflexivity|].
      left. apply (text_ends _ (Returned ra)). }
  destruct (interruption _) eqn:Hwhole1.
  { this_branch. eexists. split; [reflexivity|].
    right. cbn [after_loop]. now apply interrupted_calls. }
  clear Hwhole1.
  destruct (existsb _ _).
  { this_branch. eexists. split; [reflexivity|]. left. apply text_ends. }
  cbn [Nat.eqb MAX_ROUNDS]. rewrite round_loop_unfold. cbn zeta.
  destruct (client self _ _) as [rb|e].
  2:{ this_branch. eexists. split; [reflexivity|].
      left. apply (text_ends _ (Raised e)). }
  destruct (negb _).
  { this_branch. eexists. split; [reflexivity|].
    left. apply (text_ends _ (Returned rb)). }
  destruct (interruption _) eqn:Hwhole2.
  { this_branch. eexists. split; [reflexivity|].
    right. cbn [after_loop].
    cbn [app] in Hwhole2. rewrite <- ?app_assoc in Hwhole2. cbn [app] in Hwhole2.
    now apply interrupted_calls. }
  clear Hwhole2.
  destruct (existsb _ _); this_branch; (eexists; split; [reflexivity|]);
    left; apply text_ends.
Qed.

Lemma last_round_split (tr : trace) (rd : round) :
  last_round tr = Some rd -> exists earlier, rounds_of tr = earlier ++ [rd].
Proof.
  unfold last_round. destruct (rev (rounds_of tr)) as [|rd0 before] eqn:Hrev;
    [discriminate|].
  intros Hlast. injection Hlast as ->.
  exists (rev before).
  rewrite <- (rev_involutive (rounds_of tr)), Hrev. reflexivity.
Qed.

Lemma split_last_round (tr : trace) (earlier : list round) (rd : round) :
  rounds_of tr = earlier ++ [rd] -> last_round tr = Some rd.
Proof.
  intros Hrounds. unfold last_round. now rewrite Hrounds, rev_app_distr.
Qed.

(** X3: a run ends in one of two ways.  Either the response to the last
    LLM call is not processed for tool use: no dispatch follows that call,
    and the result of [generate_response] is [content[0].text] of that
    response, or the failure of the call, whatever its stop_reason.  Or the
    last dispatch after that call raised an exception outside [Exception],
    and [generate_response] raises that exception. *)
Theorem run_ends_with_text_or_interrupt (self : AIGenerator) (query : string)
    (history : option string) (tools : option (list tool_schema))
    (tool_manager : option ToolManager) :
  exists earlier rd,
    rounds_of (snd (run (generate_response self query history tools tool_manager)))
      = earlier ++ [rd] /\
    ((round_dispatches rd = [] /\
      fst (run (generate_response self query history tools tool_manager))
        = text_of (round_response rd)) \/
     (exists e calls name input,
        fst (run (generate_response self query history tools tool_manager))
          = Raised e /\
        exn_is_exception e = false /\
        round_dispatches rd = calls ++ [(name, input, Raised e)])).
Proof.
  destruct (run_ends self query history tools tool_manager) as [rd [Hlast Hend]].
  destruct (last_round_split _ _ Hlast) as [earlier Hrounds].
  exists earlier, rd. split; [exact Hrounds|].
  destruct Hend as [Htext|Hinterrupt]; [left; exact Htext|right; exact Hinterrupt].
Qed.

(** X10: when no dispatch follows the last LLM call, what the caller gets
    depends on the first content block of the last response alone: its text
    when it is a text block, an IndexError when the content is empty, and an
    AttributeError when it is a tool_use block, as for a forced final
    response that asks for a tool again. *)
Theorem unreadable_last_response_raises (self : AIGenerator) (query : string)
    (history : option string) (tools : option (list tool_schema))
    (tool_manager : option ToolManager) (earlier : list round) (rd : round)
    (r : response) :
  rounds_of (snd (run (generate_response self query history tools tool_manager)))
    = earlier ++ [rd] ->
  round_response rd = Returned r ->
  round_dispatches rd = [] ->
  (forall text rest, content r = TextBlock text :: rest ->
     fst (run (generate_response self query history tools tool_manager))
       = Returned text) /\
  (content r = [] ->
   fst (run (generate_response self query history tools tool_manager))
     = Raised IndexError) /\
  (forall id name input rest, content r = ToolUseBlock id name input :: rest ->
     fst (run (generate_response self query history tools tool_manager))
       = Raised AttributeError).
Proof.
  intros Hrounds Hresp Hnone.
  assert (Hres : fst (run (generate_response self query history tools tool_manager))
                 = content0_text r).
  { destruct (run_ends self query history tools tool_manager) as [rd' [Hlast Hend]].
    rewrite (split_last_round _ _ _ Hrounds) in Hlast. injection Hlast as <-.
    destruct Hend as [[_ Htext]|[e [calls [name [input [_ [_ Hcalls]]]]]]].
    - now rewrite Htext, Hresp.
    - rewrite Hnone in Hcalls. destruct calls; discriminate. }
  rewrite Hres. unfold content0_text.
  repeat split.
  - intros text rest ->. reflexivity.
  - intros ->. reflexivity.
  - intros id name input rest ->. reflexivity.
Qed.

(** X8: without a tool manager a run is a single LLM call and no dispatch,
    whatever the call yields, and the result is [content[0].text] of its
    response or the failure of the call. *)
Theorem single_call_without_tool_manager (self : AIGenerator) (query : string)
    (history : option string) (tools : option (list tool_schema)) :
  exists out,
    run (generate_response self query history tools None) =
      (text_of out,
       [LLMCall (build_params self [user_turn query] tools (system_content_of history))
          out]).
Proof.
  unfold run. rewrite generate_response_eq.
  change (seq 1 MAX_ROUNDS) with [1; 2].
  rewrite round_loop_unfold. cbn zeta.
  exists (client self [] (build_params self [user_turn query] tools
                            (system_content_of history))).
  destruct (client self [] _) as [r|e]; [|reflexivity].
  destruct (negb _); cbn [fst snd app text_of]; now rewrite after_loop_some_text.
Qed.

(** X2: a failure of an LLM call is not retried and not handled: when the
    LLM call of some round raises, that round is the last one of the run,
    nothing is dispatched after it, and [generate_response] raises the same
    exception. *)
Theorem llm_failure_ends_the_run (self : AIGenerator) (query : string)
    (history : option string) (tools : option (list tool_schema))
    (tool_manager : option ToolManager) (i : nat) (rd : round) (e : exn) :
  nth_error (rounds_of (snd (run (generate_response self query history tools
                                    tool_manager)))) i = Some rd ->
  round_response rd = Raised e ->
  length (rounds_of (snd (run (generate_response self query history tools
                                 tool_manager)))) = S i /\
  round_dispatches rd = [] /\
  fst (run (generate_response self query history tools tool_manager)) = Raised e.
Proof.
  enter_run. start_run.
  assert (Hlast : forall out, out = Raised e ->
            after_loop (some_text (text_of out)) = Raised e).
  { intros out ->. reflexivity. }
  destruct (client self [] _) as [ra|e1].
  2:{ this_branch. destruct i as [|[|i]]; cbn [nth_error]; intros Hnth Hresp;
      inversion Hnth; subst; cbn [round_response] in Hresp;
      inversion Hresp; subst; repeat split. }
  destruct (negb _).
  { this_branch. destruct i as [|[|i]]; cbn [nth_error]; intros Hnth Hresp;
      inversion Hnth; subst; discriminate. }
  destruct tool_manager as [manager|].
  2:{ this_branch. destruct i as [|[|i]]; cbn [nth_error]; intros Hnth Hresp;
      inversion Hnth; subst; discriminate. }
  destruct (interruption _).
  { this_branch. destruct i as [|[|i]]; cbn [nth_error]; intros Hnth Hresp;
      inversion Hnth; subst; discriminate. }
  destruct (existsb _ _).
  { this_branch. destruct i as [|[|[|i]]]; cbn [nth_error]; intros Hnth Hresp;
      inversion Hnth; subst; cbn [round_response] in Hresp; try discriminate.
    rewrite (Hlast _ Hresp). repeat split. }
  cbn [Nat.eqb MAX_ROUNDS]. rewrite round_loop_unfold. cbn zeta.
  destruct (client self _ _) as [rb|e2].
  2:{ this_branch. destruct i as [|[|[|i]]]; cbn [nth_error]; intros Hnth Hresp;
      inversion Hnth; subst; cbn [round_response] in Hresp; try discriminate.
      inversion Hresp; subst. repeat split. }
  destruct (negb _).
  { this_branch. destruct i as [|[|[|i]]]; cbn [nth_error]; intros Hnth Hresp;
      inversion Hnth; subst; discriminate. }
  destruct (interruption _).
  { this_branch. destruct i as [|[|[|i]]]; cbn [nth_error]; intros Hnth Hresp;
      inversion Hnth; subst; discriminate. }
  destruct (existsb _ _); this_branch;
    (destruct i as [|[|[|[|i]]]]; cbn [nth_error]; intros Hnth Hresp;
     inversion Hnth; subst; cbn [round_response] in Hresp; try discriminate;
     rewrite (Hlast _ Hresp); repeat split).
Qed.

(** ** Dispatches of a tool round *)

Lemma events_are_dispatches (ds : list (tool_use * outcome string)) :
  forallb is_dispatch (map event_of ds) = true.
Proof.
  induction ds as [|[[[id name] input] out] more IH]; [reflexivity|exact IH].
Qed.

Lemma calls_of_uses (ds : list (tool_use * outcome string)) :
  map call_request (map call_of ds) = map use_call (map fst ds).
Proof.
  induction ds as [|[[[id name] input] out] more IH]; [reflexivity|].
  cbn [map]. rewrite IH. reflexivity.
Qed.

Lemma calls_of_dispatches (manager : ToolManager) (uses : list tool_use) (tr : trace) :
  interruption (dispatches manager uses tr) = None ->
  map call_request (map call_of (dispatches manager uses tr)) = map use_call uses.
Proof. intros Hnone. now rewrite calls_of_uses, dispatches_uses. Qed.

(** X4: a tool round dispatches the tool_use blocks of the turn one by
    one, in the order of the blocks and with the block's name and arguments,
    and makes no LLM call.  It goes on after a dispatch that raised an
    instance of [Exception]; blocks are left out only when a dispatch raised
    an exception outside [Exception], which ends the round. *)
Theorem tool_uses_are_dispatched_in_order (manager : ToolManager) (r : response)
    (messages : list message) (tr : trace) :
  exists evs skipped,
    snd (_process_tool_round r messages manager tr) = tr ++ evs /\
    forallb is_dispatch evs = true /\
    map use_call (tool_uses (content r))
      = map call_request (leading_dispatches evs) ++ skipped /\
    (skipped = [] \/
     exists e,
       fst (_process_tool_round r messages manager tr) = Raised e /\
       exn_is_exception e = false).
Proof.
  rewrite process_tool_round_eq. cbn [fst snd].
  destruct (dispatches_prefix manager (tool_uses (content r)) tr)
    as [skipped [Huses Hall]].
  exists (map event_of (dispatches manager (tool_uses (content r)) tr)),
         (map use_call skipped).
  split; [reflexivity|]. split; [apply events_are_dispatches|]. split.
  - rewrite leading_dispatches_of_events, calls_of_uses, <- map_app.
    now rewrite <- Huses.
  - destruct (interruption _) as [e|] eqn:Hint.
    + right. exists e. split; [reflexivity|].
      now destruct (interruption_last manager _ _ _ Hint).
    + left. now rewrite (Hall eq_refl).
Qed.

(** X5: after a tool round that returns, the error check of
    [generate_response] fires exactly when some dispatch of the round
    raised; a tool that returns a text, whatever it says, never triggers
    it. *)
Theorem error_check_fires_iff_a_dispatch_raised (manager : ToolManager) (r : response)
    (messages : list message) (tr : trace) (messages' : list message) (tr' : trace) :
  _process_tool_round r messages manager tr = (Returned messages', tr') ->
  exists evs,
    tr' = tr ++ evs /\
    any_tool_error messages' = negb (forallb dispatch_returned (leading_dispatches evs)).
Proof.
  rewrite process_tool_round_eq.
  destruct (interruption _); [discriminate|].
  intros Hround. injection Hround as <- <-.
  eexists. split; [reflexivity|].
  now rewrite any_tool_error_after, batch_error_iff_raised,
    leading_dispatches_of_events.
Qed.

(** ** Requests of a run *)

Lemma build_params_well_formed (self : AIGenerator) (tools : option (list tool_schema))
    (messages : list message) (system_content : string) :
  well_formed_request self tools (build_params self messages tools system_content) /\
  well_formed_request self tools (build_params self messages None system_content).
Proof.
  unfold well_formed_request, build_params.
  split; [|cbn; auto 10].
  destruct (truthy_tools tools) eqn:Htruthy; cbn; auto 10.
Qed.

Lemma p_messages_build (self : AIGenerator) (tools : option (list tool_schema))
    (messages : list message) (system_content : string) :
  p_messages (build_params self messages tools system_content) = messages.
Proof. unfold build_params. destruct (truthy_tools tools); reflexivity. Qed.

Lemma p_tools_build (self : AIGenerator) (tools : option (list tool_schema))
    (messages messages' : list message) (system_content : string) :
  p_tools (build_params self messages tools system_content) =
  p_tools (build_params self messages' tools system_content) /\
  p_tool_choice (build_params self messages tools system_content) =
  p_tool_choice (build_params self messages' tools system_content).
Proof. unfold build_params. destruct (truthy_tools tools); split; reflexivity. Qed.

Ltac all_well_formed :=
  repeat (constructor;
          [cbn [round_request]; apply build_params_well_formed|]);
  constructor.

(** X6: every LLM call of a run is sent the model of the generator,
    temperature 0 and max_tokens 800, and carries either neither "tools" nor
    "tool_choice" or the non-empty tool list passed in together with the
    tool choice "auto"; a tool choice is never sent without tools. *)
Theorem every_request_is_well_formed (self : AIGenerator) (query : string)
    (history : option string) (tools : option (list tool_schema))
    (tool_manager : option ToolManager) :
  Forall (fun rd => well_formed_request self tools (round_request rd))
    (rounds_of (snd (run (generate_response self query history tools tool_manager)))).
Proof.
  enter_run. start_run.
  destruct (client self [] _) as [ra|e]; [|this_branch; all_well_formed].
  destruct (negb _); [this_branch; all_well_formed|].
  destruct tool_manager as [manager|]; [|this_branch; all_well_formed].
  destruct (interruption _); [this_branch; all_well_formed|].
  destruct (existsb _ _); [this_branch; all_well_formed|].
  cbn [Nat.eqb MAX_ROUNDS]. rewrite round_loop_unfold. cbn zeta.
  destruct (client self _ _) as [rb|e]; [|this_branch; all_well_formed].
  destruct (negb _); [this_branch; all_well_formed|].
  destruct (interruption _); [this_branch; all_well_formed|].
  destruct (existsb _ _); this_branch; all_well_formed.
Qed.

(** ** From one round to the next *)

Lemma next_request_extends (self : AIGenerator) (manager : ToolManager)
    (tools tools' : option (list tool_schema)) (system_content : string)
    (messages : list message) (r : response) (tr : trace)
    (out out' : outcome response) (calls' : list tool_call) :
  out = Returned r ->
  negb (stop_reason r =? "tool_use")%string = false ->
  interruption (dispatches manager (tool_uses (content r)) tr) = None ->
  exists r0 batch,
    round_response
      (mkRound (build_params self messages tools system_content) out
         (map call_of (dispatches manager (tool_uses (content r)) tr)))
      = Returned r0 /\
    stop_reason r0 = "tool_use" /\
    p_messages
      (round_request
         (mkRound
            (build_params self
               (messages ++ assistant_turn r
                  :: batch_turn (map entry_of
                                   (dispatches manager (tool_uses (content r)) tr)))
               tools' system_content) out' calls'))
      = p_messages
          (round_request
             (mkRound (build_params self messages tools system_content) out
                (map call_of (dispatches manager (tool_uses (content r)) tr))))
        ++ assistant_turn r0 :: batch_turn batch /\
    map tool_use_id batch = map (fun u => fst (fst u)) (tool_uses (content r0)) /\
    map call_request
      (round_dispatches
         (mkRound (build_params self messages tools system_content) out
            (map call_of (dispatches manager (tool_uses (content r)) tr))))
      = map use_call (tool_uses (content r0)).
Proof.
  intros -> Hstop Hwhole. apply negb_false_iff, String.eqb_eq in Hstop.
  exists r, (map entry_of (dispatches manager (tool_uses (content r)) tr)).
  cbn [round_response round_request round_dispatches].
  rewrite !p_messages_build, batch_ids, (calls_of_dispatches _ _ _ Hwhole),
    (dispatches_uses _ _ _ Hwhole).
  repeat split. exact Hstop.
Qed.

(** X7: the conversation is carried from each LLM call to the next: the
    response of a call that is followed by another call asked for tool use,
    the dispatches between the two calls are the tool_use blocks of that
    response in order, and the messages of the next call are those of the
    call before, then the assistant turn with the raw content of the
    response, then (when there is a tool_use block) one user turn with one
    tool_result per tool_use block under the block's id. *)
Theorem each_request_extends_the_previous (self : AIGenerator) (query : string)
    (history : option string) (tools : option (list tool_schema))
    (tool_manager : option ToolManager) (i : nat) (rd1 rd2 : round) :
  nth_error (rounds_of (snd (run (generate_response self query history tools
                                    tool_manager)))) i = Some rd1 ->
  nth_error (rounds_of (snd (run (generate_response self query history tools
                                    tool_manager)))) (S i) = Some rd2 ->
  exists r batch,
    round_response rd1 = Returned r /\
    stop_reason r = "tool_use" /\
    p_messages (round_request rd2) =
      p_messages (round_request rd1) ++ assistant_turn r :: batch_turn batch /\
    map tool_use_id batch = map (fun u => fst (fst u)) (tool_uses (content r)) /\
    map call_request (round_dispatches rd1) = map use_call (tool_uses (content r)).
Proof.
  enter_run. start_run.
  destruct (client self [] _) as [ra|e].
  2:{ this_branch. destruct i as [|[|i]]; cbn [nth_error]; intros Hnth1 Hnth2;
      discriminate. }
  destruct (negb _) eqn:Hstop1.
  { this_branch. destruct i as [|[|i]]; cbn [nth_error]; intros Hnth1 Hnth2;
      discriminate. }
  destruct tool_manager as [manager|].
  2:{ this_branch. destruct i as [|[|i]]; cbn [nth_error]; intros Hnth1 Hnth2;
      discriminate. }
  destruct (interruption _) eqn:Hwhole1.
  { this_branch. destruct i as [|[|i]]; cbn [nth_error]; intros Hnth1 Hnth2;
      discriminate. }
  cbn [app] in Hwhole1.
  destruct (existsb _ _).
  { this_branch. destruct i as [|[|[|i]]]; cbn [nth_error]; intros Hnth1 Hnth2;
      try discriminate.
    injection Hnth1 as <-. injection Hnth2 as <-.
    apply (next_request_extends self manager tools None (system_content_of history)
             [user_turn query] ra); [reflexivity|exact Hstop1|exact Hwhole1]. }
  cbn [Nat.eqb MAX_ROUNDS]. rewrite round_loop_unfold. cbn zeta.
  destruct (client self _ _) as [rb|e].
  2:{ this_branch. destruct i as [|[|[|i]]]; cbn [nth_error]; intros Hnth1 Hnth2;
      try discriminate.
      injection Hnth1 as <-. injection Hnth2 as <-.
      apply (next_request_extends self manager tools tools (system_content_of history)
               [user_turn query] ra); [reflexivity|exact Hstop1|exact Hwhole1]. }
  destruct (negb (stop_reason rb =? _)%string) eqn:Hstop2.
  { this_branch. destruct i as [|[|[|i]]]; cbn [nth_error]; intros Hnth1 Hnth2;
      try discriminate.
    injection Hnth1 as <-. injection Hnth2 as <-.
    apply (next_request_extends self manager tools tools (system_content_of history)
             [user_turn query] ra); [reflexivity|exact Hstop1|exact Hwhole1]. }
  destruct (interruption (dispatches _ (tool_uses (content rb)) _)) eqn:Hwhole2.
  { this_branch. destruct i as [|[|[|i]]]; cbn [nth_error]; intros Hnth1 Hnth2;
      try discriminate.
    injection Hnth1 as <-. injection Hnth2 as <-.
    apply (next_request_extends self manager tools tools (system_content_of history)
             [user_turn query] ra); [reflexivity|exact Hstop1|exact Hwhole1]. }
  cbn [app] in Hwhole2. rewrite <- ?app_assoc in Hwhole2. cbn [app] in Hwhole2.
  destruct (existsb _ _); this_branch;
    (destruct i as [|[|[|[|i]]]]; cbn [nth_error]; intros Hnth1 Hnth2;
     try discriminate; injection Hnth1 as <-; injection Hnth2 as <-;
     [ apply (next_request_extends self manager tools tools (system_content_of history)
                [user_turn query] ra); [reflexivity|exact Hstop1|exact Hwhole1]
     | apply (next_request_extends self manager tools None (system_content_of history)
                (user_turn query :: assistant_turn ra :: batch_turn _) rb);
       [reflexivity|exact Hstop2|exact Hwhole2] ]).
Qed.

Lemma tools_kept_or_dropped (self : AIGenerator) (manager : ToolManager)
    (tools : option (list tool_schema)) (system_content : string)
    (messages messages' : list message) (uses : list tool_use) (tr : trace)
    (out out' : outcome response) (calls' : list tool_call) (error : bool) :
  existsb is_error_set (map entry_of (dispatches manager uses tr)) = error ->
  let rd1 := mkRound (build_params self messages tools system_content) out
               (map call_of (dispatches manager uses tr)) in
  let rd2 := mkRound (build_params self messages' (if error then None else tools)
                        system_content) out' calls' in
  p_tools (round_request rd2) =
    (if forallb dispatch_returned (round_dispatches rd1)
     then p_tools (round_request rd1) else None) /\
  p_tool_choice (round_request rd2) =
    (if forallb dispatch_returned (round_dispatches rd1)
     then p_tool_choice (round_request rd1) else None).
Proof.
  intros Herror rd1 rd2. subst rd1 rd2. cbn [round_request round_dispatches].
  rewrite batch_error_iff_raised in Herror.
  destruct (forallb dispatch_returned _); cbn in Herror; subst error.
  - apply p_tools_build.
  - split; reflexivity.
Qed.

(** X9: the second LLM call of a run offers the tools exactly as the first
    one did when every dispatch of the first round returned, and offers no
    tools when one of them raised; a third call never offers tools. *)
Theorem tools_offered_again_unless_a_dispatch_failed (self : AIGenerator)
    (query : string) (history : option string) (tools : option (list tool_schema))
    (tool_manager : option ToolManager) (rd1 rd2 : round) (later : list round) :
  rounds_of (snd (run (generate_response self query history tools tool_manager)))
    = rd1 :: rd2 :: later ->
  p_tools (round_request rd2) =
    (if forallb dispatch_returned (round_dispatches rd1)
     then p_tools (round_request rd1) else None) /\
  p_tool_choice (round_request rd2) =
    (if forallb dispatch_returned (round_dispatches rd1)
     then p_tool_choice (round_request rd1) else None) /\
  Forall (fun rd => p_tools (round_request rd) = None /\
                    p_tool_choice (round_request rd) = None) later.
Proof.
  enter_run. start_run.
  destruct (client self [] _) as [ra|e]; [|this_branch; discriminate].
  destruct (negb _); [this_branch; discriminate|].
  destruct tool_manager as [manager|]; [|this_branch; discriminate].
  destruct (interruption _); [this_branch; discriminate|].
  destruct (existsb _ _) eqn:Herror1.
  { this_branch. intros Hrounds. injection Hrounds as <- <- <-.
    cbn [app] in Herror1.
    destruct (tools_kept_or_dropped self manager tools (system_content_of history)
                [user_turn query]
                (user_turn query :: assistant_turn ra :: batch_turn
                   (map entry_of (dispatches manager (tool_uses (content ra))
                      [LLMCall (build_params self [user_turn query] tools
                                  (system_content_of history)) (Returned ra)])))
                _ _ (Returned ra)
                (client self
                   (LLMCall (build_params self [user_turn query] tools
                               (system_content_of history)) (Returned ra)
                    :: map event_of (dispatches manager (tool_uses (content ra))
                         [LLMCall (build_params self [user_turn query] tools
                                     (system_content_of history)) (Returned ra)]))
                   (build_params self
                      (user_turn query :: assistant_turn ra :: batch_turn
                         (map entry_of (dispatches manager (tool_uses (content ra))
                            [LLMCall (build_params self [user_turn query] tools
                                        (system_content_of history)) (Returned ra)])))
                      None (system_content_of history)))
                [] true Herror1) as [Htools Hchoice].
    split; [exact Htools|]. split; [exact Hchoice|constructor]. }
  cbn [Nat.eqb MAX_ROUNDS]. rewrite round_loop_unfold. cbn zeta.
  cbn [app] in Herror1.
  assert (Hkept := fun messages' out' calls' =>
            tools_kept_or_dropped self manager tools (system_content_of history)
              [user_turn query] messages' _ _ (Returned ra) out' calls' false Herror1).
  cbn zeta in Hkept. clear Herror1.
  destruct (client self _ _) as [rb|e].
  2:{ this_branch. intros Hrounds. injection Hrounds as <- <- <-.
      split; [apply Hkept|]. split; [apply Hkept|constructor]. }
  destruct (negb (stop_reason rb =? _)%string).
  { this_branch. intros Hrounds. injection Hrounds as <- <- <-.
    split; [apply Hkept|]. split; [apply Hkept|constructor]. }
  destruct (interruption _).
  { this_branch. intros Hrounds. injection Hrounds as <- <- <-.
    split; [apply Hkept|]. split; [apply Hkept|constructor]. }
  destruct (existsb _ _); this_branch; intros Hrounds;
    injection Hrounds as <- <- <-;
    (split; [apply Hkept|]; split; [apply Hkept|]);
    (constructor; [split; reflexivity|constructor]).
Qed.

(** ** Instances *)

Lemma llm_failure_ends_the_run_witness :
  fst (run (generate_response loses_connection "Simple query" None
              (Some [search_schema]) (Some (constant_manager "Tool result"))))
  = Raised connection_error.
Proof.
  eapply (fun Hnth Hresp =>
            proj2 (proj2 (llm_failure_ends_the_run loses_connection "Simple query" None
                            (Some [search_schema]) (Some (constant_manager "Tool result"))
                            1 _ connection_error Hnth Hresp))); reflexivity.
Defined.

Lemma each_request_extends_the_previous_witness :
  exists rd1 rd2 r batch,
    nth_error (rounds_of (snd (run (generate_response answers_after_one_tool
                                      "Simple query" None (Some [search_schema])
                                      (Some (constant_manager "Tool result")))))) 0
      = Some rd1 /\
    nth_error (rounds_of (snd (run (generate_response answers_after_one_tool
                                      "Simple query" None (Some [search_schema])
                                      (Some (constant_manager "Tool result")))))) 1
      = Some rd2 /\
    round_response rd1 = Returned r /\
    stop_reason r = "tool_use" /\
    p_messages (round_request rd2) =
      p_messages (round_request rd1) ++ assistant_turn r :: batch_turn batch /\
    map tool_use_id batch = map (fun u => fst (fst u)) (tool_uses (content r)) /\
    map call_request (round_dispatches rd1) = map use_call (tool_uses (content r)).
Proof.
  eassert (Hnth1 : nth_error (rounds_of (snd (run (generate_response answers_after_one_tool
                                      "Simple query" None (Some [search_schema])
                                      (Some (constant_manager "Tool result")))))) 0
                   = Some _) by reflexivity.
  eassert (Hnth2 : nth_error (rounds_of (snd (run (generate_response answers_after_one_tool
                                      "Simple query" None (Some [search_schema])
                                      (Some (constant_manager "Tool result")))))) 1
                   = Some _) by reflexivity.
  destruct (each_request_extends_the_previous answers_after_one_tool "Simple query" None
              (Some [search_schema]) (Some (constant_manager "Tool result")) 0 _ _
              Hnth1 Hnth2) as [r [batch Hchain]].
  do 4 eexists. split; [exact Hnth1|]. split; [exact Hnth2|]. exact Hchain.
Defined.

Lemma tools_offered_again_unless_a_dispatch_failed_witness :
  exists rd1 rd2 later,
    rounds_of (snd (run (generate_response wants_three_rounds "Complex query" None
                           (Some [search_schema]) (Some (constant_manager "Result")))))
      = rd1 :: rd2 :: later /\
    p_tools (round_request rd2) = Some [search_schema] /\
    p_tool_choice (round_request rd2) = Some [("type", "auto")] /\
    Forall (fun rd => p_tools (round_request rd) = None /\
                      p_tool_choice (round_request rd) = None) later.
Proof.
  eassert (Hrounds : rounds_of (snd (run (generate_response wants_three_rounds
                                "Complex query" None (Some [search_schema])
                                (Some (constant_manager "Result")))))
                     = _ :: _ :: _) by reflexivity.
  destruct (tools_offered_again_unless_a_dispatch_failed wants_three_rounds
              "Complex query" None (Some [search_schema])
              (Some (constant_manager "Result")) _ _ _ Hrounds)
    as [Htools [Hchoice Hlater]].
  do 3 eexists. split; [exact Hrounds|].
  split; [exact Htools|]. split; [exact Hchoice|exact Hlater].
Defined.

Lemma unreadable_last_response_raises_witness :
  fst (run (generate_response asks_a_third_time "Complex query" None
              (Some [search_schema]) (Some (constant_manager "Result"))))
  = Raised AttributeError.
Proof.
  eapply (fun Hrounds Hresp Hnone =>
            proj2 (proj2 (unreadable_last_response_raises asks_a_third_time
                            "Complex query" None (Some [search_schema])
                            (Some (constant_manager "Result"))
                            [_; _] _ tool_request_t3 Hrounds Hresp Hnone))
              "t3" "search_course_content" [("query", JStr "test3")] []);
    reflexivity.
Defined.

Lemma error_check_fires_iff_a_dispatch_raised_witness :
  exists evs,
    [ToolCall "search_course_content" []
       (Raised (mkExn "Exception" "Database connection failed"))] = [] ++ evs /\
    any_tool_error
      [user_turn "Test";
       assistant_turn (mkResponse "tool_use" [ToolUseBlock "t1" "search_course_content" []]);
       mkMessage "user"
         (ToolResults [mkToolResult "tool_result" "t1"
                         "Error executing tool: Database connection failed"
                         (Some true)])]
    = negb (forallb dispatch_returned (leading_dispatches evs)).
Proof.
  apply (error_check_fires_iff_a_dispatch_raised
           (failing_manager "Database connection failed")
           (mkResponse "tool_use" [ToolUseBlock "t1" "search_course_content" []])
           [user_turn "Test"] []).
  reflexivity.
Defined.
